(** * crash-graphs: the crash-report pipeline of [main.py]

    A shallow embedding of the four stages of [main.py]
    (fetch, extract, aggregate, report) and the properties of each stage.

    Conventions of the embedding.
    - Python text is a [string] of ASCII characters; [upper], [strip] and
      [repr] follow CPython on code points 0..127.
    - A decoded JSON document is a [value]; a dict is an association list
      in insertion order whose first binding of a key is the live one.
    - A statement that can raise returns an [outcome]; console output, the
      HTTP request, directory creation, the CSV file and the chart are
      [event]s collected in program order.
    - A pandas Series of strings is a [list string]; the Series returned by
      [value_counts] is a [list (string * nat)] of index label and count. *)

From Stdlib Require Import List String Ascii Bool Arith ZArith Lia.
From Stdlib Require Import Sorted Permutation DecimalString DecimalNat.
Import ListNotations.

Local Open Scope string_scope.
Local Open Scope list_scope.
Local Open Scope nat_scope.
Local Set Warnings "-register-all".

(* ------------------------------------------------------------------ *)
(** ** Python values *)

(** What [response.json()] can produce.  A float is kept as the two
    observations this program makes of one: whether it is zero (its truth
    value) and its printed form. *)
Inductive value : Type :=
| VNone
| VBool (b : bool)
| VInt (n : Z)
| VFloat (is_zero : bool) (shown : string)
| VStr (s : string)
| VList (xs : list value)
| VDict (kvs : list (string * value)).

(** The exceptions that can arise here.  [HTTPError], [ConnectionError] and
    [JSONDecodeError] are the ones of the requests library. *)
Inductive exn : Type :=
| AttributeError
| TypeError
| IndexError
| ConnectionError
| HTTPError
| JSONDecodeError.

Inductive outcome (A : Type) : Type :=
| Returned (a : A)
| Raised (e : exn).
Arguments Returned {A} a.
Arguments Raised {A} e.

(** [bool(v)]. *)
Definition truthy (v : value) : bool :=
  match v with
  | VNone => false
  | VBool b => b
  | VInt n => negb (Z.eqb n 0)
  | VFloat z _ => negb z
  | VStr s => negb (String.eqb s "")
  | VList xs => match xs with [] => false | _ :: _ => true end
  | VDict kvs => match kvs with [] => false | _ :: _ => true end
  end.

(** [d.get(k)] on a dict held as an association list. *)
Fixpoint dict_get {A : Type} (k : string) (kvs : list (string * A)) : option A :=
  match kvs with
  | [] => None
  | (k', v) :: rest => if String.eqb k k' then Some v else dict_get k rest
  end.

(** [len(v)]: only sized values have a length. *)
Definition py_len (v : value) : outcome nat :=
  match v with
  | VStr s => Returned (String.length s)
  | VList xs => Returned (List.length xs)
  | VDict kvs => Returned (List.length kvs)
  | _ => Raised TypeError
  end.

(* ------------------------------------------------------------------ *)
(** ** Text: [upper], [strip], [repr], [str] *)

Definition squote : ascii := "'"%char.
Definition dquote : ascii := ascii_of_nat 34.
Definition backslash : ascii := ascii_of_nat 92.

Definition upper_char (c : ascii) : ascii :=
  let n := nat_of_ascii c in
  if (97 <=? n) && (n <=? 122) then ascii_of_nat (n - 32) else c.

(** [s.upper()] on ASCII text, where only a-z have an upper-case form.
    Beyond ASCII [str.upper] follows Unicode, which is not modelled:
    statements about arbitrary region text are made over every function that
    agrees with this one on ASCII text. *)
Fixpoint upper (s : string) : string :=
  match s with
  | EmptyString => EmptyString
  | String c r => String (upper_char c) (upper r)
  end.

(** [c.isspace()]: tab, line feed, vertical tab, form feed, carriage
    return, the four separators 28..31 and the space. *)
Definition is_space (c : ascii) : bool :=
  let n := nat_of_ascii c in
  ((9 <=? n) && (n <=? 13)) || ((28 <=? n) && (n <=? 32)).

Fixpoint lstrip (s : string) : string :=
  match s with
  | EmptyString => EmptyString
  | String c r => if is_space c then lstrip r else s
  end.

Fixpoint rstrip (s : string) : string :=
  match s with
  | EmptyString => EmptyString
  | String c r =>
      match rstrip r with
      | EmptyString => if is_space c then EmptyString else String c EmptyString
      | r' => String c r'
      end
  end.

(** [s.strip()]. *)
Definition strip (s : string) : string := rstrip (lstrip s).

Fixpoint contains_char (c : ascii) (s : string) : bool :=
  match s with
  | EmptyString => false
  | String c' r => Ascii.eqb c c' || contains_char c r
  end.

Definition hex_digit (n : nat) : ascii :=
  if n <? 10 then ascii_of_nat (48 + n) else ascii_of_nat (87 + n).

(** One character inside a string literal delimited by [q]. *)
Definition escape_char (q c : ascii) : string :=
  let n := nat_of_ascii c in
  if Ascii.eqb c q || Ascii.eqb c backslash then String backslash (String c EmptyString)
  else if n =? 9 then String backslash "t"
  else if n =? 10 then String backslash "n"
  else if n =? 13 then String backslash "r"
  else if (n <? 32) || (n =? 127)
       then String backslash
              (String "x" (String (hex_digit (n / 16)) (String (hex_digit (n mod 16)) EmptyString)))
  else String c EmptyString.

Fixpoint escape (q : ascii) (s : string) : string :=
  match s with
  | EmptyString => EmptyString
  | String c r => (escape_char q c ++ escape q r)%string
  end.

(** [repr(s)] of a str: single quotes, unless the text has a single quote
    and no double quote. *)
Definition repr_str (s : string) : string :=
  let q := if contains_char squote s && negb (contains_char dquote s)
           then dquote else squote in
  String q (escape q s ++ String q EmptyString).

Definition str_of_Z (n : Z) : string := NilZero.string_of_int (Z.to_int n).
Definition str_of_nat (n : nat) : string := NilZero.string_of_uint (Nat.to_uint n).

Fixpoint join (sep : string) (parts : list string) : string :=
  match parts with
  | [] => EmptyString
  | [p] => p
  | p :: rest => (p ++ sep ++ join sep rest)%string
  end.

(** [repr(v)]. *)
Fixpoint py_repr (v : value) : string :=
  match v with
  | VNone => "None"
  | VBool true => "True"
  | VBool false => "False"
  | VInt n => str_of_Z n
  | VFloat _ shown => shown
  | VStr s => repr_str s
  | VList xs => ("[" ++ join ", " (map py_repr xs) ++ "]")%string
  | VDict kvs =>
      ("{" ++ join ", "
                (map (fun kv => (repr_str (fst kv) ++ ": " ++ py_repr (snd kv))%string) kvs)
           ++ "}")%string
  end.

(** [str(v)]: a str is itself, anything else prints as its [repr]. *)
Definition py_str (v : value) : string :=
  match v with
  | VStr s => s
  | _ => py_repr v
  end.

(* ------------------------------------------------------------------ *)
(** ** Effects: diagnostics, network, files, chart *)

(** One tag per [print] of [main.py], with the data the message shows. *)
Inductive diag : Type :=
| PlaceholderKey
| Fetching (location_info : string)
| Fetched (records : nat)
| NoResults
| ResponseSample (text : string)
| RequestFailed (e : exn)
| BadJson (e : exn)
| Unexpected (e : exn)
| NoCrashData
| NoMakesExtracted
| EmptySeries
| NothingToPlot
| CreatedDirectory (path : string)
| NoDataRetrieved
| CannotProceed
| TopBrands (counts : list (string * nat))
| Saved (path : string)
| NoTopBrands.

Record request : Type := { url : string; params : list (string * value) }.

Inductive body : Type :=
| NotJson
| Json (data : value).

(** What the one HTTP GET comes back with: no response at all (DNS,
    connection, timeout) or a status code and a body. *)
Inductive reply : Type :=
| NoReply
| Reply (status : nat) (reply_body : body).

(** The [Response] object of the requests library. *)
Record response : Type := { status_code : nat; content : body }.

Record chart : Type :=
  { title : string; xlabel : string; ylabel : string; bars : list (string * nat) }.

Inductive event : Type :=
| Print (d : diag)
| HttpGet (r : request)
| MakeDirs (path : string)
| WriteCsv (path : string) (rows : list (list string))
| ShowChart (c : chart).

(** A run: the events so far and how the call ended. *)
Definition M (A : Type) : Type := list event * outcome A.

Definition ret {A : Type} (a : A) : M A := ([], Returned a).
Definition raise {A : Type} (e : exn) : M A := ([], Raised e).
Definition emit (e : event) : M unit := ([e], Returned tt).
Definition lift {A : Type} (o : outcome A) : M A := ([], o).

Definition bind {A B : Type} (m : M A) (k : A -> M B) : M B :=
  match snd m with
  | Returned a => (fst m ++ fst (k a), snd (k a))
  | Raised e => (fst m, Raised e)
  end.

(** [try: m except ... as e: handler e]. *)
Definition try_except {A : Type} (m : M A) (handler : exn -> M A) : M A :=
  match snd m with
  | Returned a => m
  | Raised e => (fst m ++ fst (handler e), snd (handler e))
  end.

Notation "x <- m ;; k" := (bind m (fun x => k))
  (at level 61, m at next level, right associativity).
Notation "m ;; k" := (bind m (fun _ => k))
  (at level 61, right associativity).

(** [for x in xs: acc = step acc x], stopping at the first exception. *)
Fixpoint for_each {A B : Type} (xs : list A) (acc : B) (step : B -> A -> M B) : M B :=
  match xs with
  | [] => ret acc
  | x :: rest => acc' <- step acc x ;; for_each rest acc' step
  end.

Definition events {A : Type} (m : M A) : list event := fst m.
Definition result {A : Type} (m : M A) : outcome A := snd m.

Definition is_http_get (e : event) : bool :=
  match e with HttpGet _ => true | _ => false end.
Definition is_write_csv (e : event) : bool :=
  match e with WriteCsv _ _ => true | _ => false end.
Definition is_show_chart (e : event) : bool :=
  match e with ShowChart _ => true | _ => false end.
Definition is_warning (e : event) : bool :=
  match e with
  | Print NothingToPlot | Print NoTopBrands | Print NoDataRetrieved
  | Print CannotProceed | Print NoCrashData | Print EmptySeries => true
  | _ => false
  end.

(** [v.get(k, default)]: only a dict has [get]. *)
Definition py_get (v : value) (k : string) (default : value) : outcome value :=
  match v with
  | VDict kvs => Returned (match dict_get k kvs with Some x => x | None => default end)
  | _ => Raised AttributeError
  end.

Definition isinstance_list (v : value) : bool :=
  match v with VList _ => true | _ => false end.

(** [len(v) > 0], asked only of a value already known to be a list. *)
Definition len_positive (v : value) : bool :=
  match py_len v with
  | Returned n => 0 <? n
  | Raised _ => false
  end.

(** [v[0]]. *)
Definition py_first (v : value) : outcome value :=
  match v with
  | VList (x :: _) => Returned x
  | VList [] => Raised IndexError
  | VStr (String c _) => Returned (VStr (String c EmptyString))
  | VStr EmptyString => Raised IndexError
  | _ => Raised TypeError
  end.

(** The items a [for] loop over [v] visits. *)
Definition py_iter (v : value) : outcome (list value) :=
  match v with
  | VList xs => Returned xs
  | VDict kvs => Returned (map (fun kv => VStr (fst kv)) kvs)
  | VStr s => Returned (map (fun c => VStr (String c EmptyString)) (list_ascii_of_string s))
  | _ => Raised TypeError
  end.

(* ------------------------------------------------------------------ *)
(** ** Step 1: fetch *)

Definition NHTSA_API_KEY : string := "YOUR_NHTSA_API_KEY".

Definition STATE_CODE_MAP : list (string * string) :=
  [ ("ALABAMA", "AL"); ("ALASKA", "AK"); ("ARIZONA", "AZ"); ("ARKANSAS", "AR");
    ("CALIFORNIA", "CA"); ("COLORADO", "CO"); ("CONNECTICUT", "CT"); ("DELAWARE", "DE");
    ("FLORIDA", "FL"); ("GEORGIA", "GA"); ("HAWAII", "HI"); ("IDAHO", "ID");
    ("ILLINOIS", "IL"); ("INDIANA", "IN"); ("IOWA", "IA"); ("KANSAS", "KS");
    ("KENTUCKY", "KY"); ("LOUISIANA", "LA"); ("MAINE", "ME"); ("MARYLAND", "MD");
    ("MASSACHUSETTS", "MA"); ("MICHIGAN", "MI"); ("MINNESOTA", "MN"); ("MISSISSIPPI", "MS");
    ("MISSOURI", "MO"); ("MONTANA", "MT"); ("NEBRASKA", "NE"); ("NEVADA", "NV");
    ("NEW HAMPSHIRE", "NH"); ("NEW JERSEY", "NJ"); ("NEW MEXICO", "NM"); ("NEW YORK", "NY");
    ("NORTH CAROLINA", "NC"); ("NORTH DAKOTA", "ND"); ("OHIO", "OH"); ("OKLAHOMA", "OK");
    ("OREGON", "OR"); ("PENNSYLVANIA", "PA"); ("RHODE ISLAND", "RI"); ("SOUTH CAROLINA", "SC");
    ("SOUTH DAKOTA", "SD"); ("TENNESSEE", "TN"); ("TEXAS", "TX"); ("UTAH", "UT");
    ("VERMONT", "VT"); ("VIRGINIA", "VA"); ("WASHINGTON", "WA"); ("WEST VIRGINIA", "WV");
    ("WISCONSIN", "WI"); ("WYOMING", "WY");
    ("DISTRICT OF COLUMBIA", "DC") ].

Definition base_url : string :=
  "https://crashviewer.nhtsa.dot.gov/CrashAPI/crashes/GetCrashesByLocation".

(** Lines 60-61: [STATE_CODE_MAP.get(state.upper(), state.upper())]. *)
Definition state_code_of (state : string) : string :=
  let state_upper := upper state in
  match dict_get state_upper STATE_CODE_MAP with
  | Some code => code
  | None => state_upper
  end.

(** Lines 58-62: the region code sent, if any; [None] and the empty
    string are both false in [if state:]. *)
Definition resolve_state (state : option string) : option string :=
  match state with
  | None => None
  | Some s => if truthy (VStr s) then Some (state_code_of s) else None
  end.

(** Lines 60-61 and 58-62 over any [up] in the place of [str.upper]. *)
Definition state_code_of_with (up : string -> string) (state : string) : string :=
  let state_upper := up state in
  match dict_get state_upper STATE_CODE_MAP with
  | Some code => code
  | None => state_upper
  end.

Definition resolve_state_with (up : string -> string) (state : option string)
  : option string :=
  match state with
  | None => None
  | Some s => if truthy (VStr s) then Some (state_code_of_with up s) else None
  end.

Definition build_params (api_key : string) (year : Z) (state : option string)
  : list (string * value) :=
  [("format", VStr "json"); ("year", VInt year); ("API_KEY", VStr api_key)]
  ++ match resolve_state state with
     | Some state_code => [("state", VStr state_code)]
     | None => []
     end.

(** The one request: the fixed endpoint and the query of lines 52-62. *)
Definition build_request (api_key : string) (year : Z) (state : option string) : request :=
  {| url := base_url; params := build_params api_key year state |}.

(** [requests.get]: one request on the wire; no response raises. *)
Definition requests_get (net : request -> reply) (r : request) : M response :=
  emit (HttpGet r) ;;
  match net r with
  | NoReply => raise ConnectionError
  | Reply status reply_body => ret {| status_code := status; content := reply_body |}
  end.

(** [response.raise_for_status()]: 4xx and 5xx raise. *)
Definition raise_for_status (resp : response) : M unit :=
  if (400 <=? status_code resp) && (status_code resp <? 600)
  then raise HTTPError
  else ret tt.

(** [response.json()]. *)
Definition response_json (resp : response) : M value :=
  match content resp with
  | Json data => ret data
  | NotJson => raise JSONDecodeError
  end.

Definition isinstance_RequestException (e : exn) : bool :=
  match e with
  | ConnectionError | HTTPError | JSONDecodeError => true
  | _ => false
  end.

Definition isinstance_ValueError (e : exn) : bool :=
  match e with
  | JSONDecodeError => true
  | _ => false
  end.

(** Lines 64-84: the body of the [try]. *)
Definition fetch_body (net : request -> reply) (r : request) (year : Z)
    (state_code : option string) : M value :=
  let location_info :=
    (" for " ++ str_of_Z year
       ++ match state_code with Some c => " (" ++ c ++ ")" | None => "" end)%string in
  emit (Print (Fetching location_info)) ;;
  resp <- requests_get net r ;;
  raise_for_status resp ;;
  data <- response_json resp ;;
  results <- lift (py_get data "Results" (VList [])) ;;
  if truthy results && isinstance_list results && len_positive results then
    crash_records <- lift (py_first results) ;;
    n <- lift (py_len crash_records) ;;
    emit (Print (Fetched n)) ;;
    ret crash_records
  else
    emit (Print NoResults) ;;
    emit (Print (ResponseSample (substring 0 500 (py_str data)))) ;;
    ret (VList []).

(** Lines 86-94: the three handlers, tried in order. *)
Definition fetch_handler (e : exn) : M value :=
  if isinstance_RequestException e then emit (Print (RequestFailed e)) ;; ret (VList [])
  else if isinstance_ValueError e then emit (Print (BadJson e)) ;; ret (VList [])
  else emit (Print (Unexpected e)) ;; ret (VList []).

(** [fetch_crash_data(year, state)], with the module's access key and the
    remote end as arguments. *)
Definition fetch_crash_data (api_key : string) (net : request -> reply)
    (year : Z) (state : option string) : M value :=
  if String.eqb api_key "YOUR_NHTSA_API_KEY" then
    emit (Print PlaceholderKey) ;; ret (VList [])
  else
    try_except
      (fetch_body net (build_request api_key year state) year (resolve_state state))
      fetch_handler.

(* ------------------------------------------------------------------ *)
(** ** Step 2: extract *)

(** Lines 115-121: one turn of the loop; [crash.get(k)] is [None] when
    the key is missing. *)
Definition extract_step (makes : list string) (crash : value) : M (list string) :=
  vehicle_make <- lift (py_get crash "vehicleMake" VNone) ;;
  if truthy vehicle_make
  then ret (makes ++ [strip (py_str vehicle_make)])
  else ret makes.

(** [extract_vehicle_makes(crash_data)]. *)
Definition extract_vehicle_makes (crash_data : value) : M (list string) :=
  if negb (truthy crash_data) then
    emit (Print NoCrashData) ;; ret []
  else
    items <- lift (py_iter crash_data) ;;
    makes <- for_each items [] extract_step ;;
    (match makes with
     | [] => emit (Print NoMakesExtracted)
     | _ :: _ => ret tt
     end) ;;
    ret makes.

(** A record list as the extractor receives it. *)
Definition record : Type := list (string * value).
Definition records (rs : list record) : value := VList (map VDict rs).

(* ------------------------------------------------------------------ *)
(** ** Step 3: aggregate *)

(** Counting keeps one entry per distinct value, in the order the values
    are first met. *)
Fixpoint bump (k : string) (counts : list (string * nat)) : list (string * nat) :=
  match counts with
  | [] => [(k, 1)]
  | (k', c) :: rest =>
      if String.eqb k k' then (k', S c) :: rest else (k', c) :: bump k rest
  end.

Definition tally (s : list string) : list (string * nat) :=
  fold_left (fun counts k => bump k counts) s [].

(** One descending sort for the [sort_values] that [value_counts] applies
    to the tally: an entry moves ahead of the entries of smaller count only.
    pandas promises the descending order, not the order among equal counts;
    this sort stands for pandas in the properties that do not depend on
    that order, and a statement that does is made over every descending
    sort (see [value_counts_with]). *)
Fixpoint insert_desc (x : string * nat) (l : list (string * nat)) : list (string * nat) :=
  match l with
  | [] => [x]
  | y :: rest => if snd x <? snd y then y :: insert_desc x rest else x :: l
  end.

Fixpoint sort_desc (l : list (string * nat)) : list (string * nat) :=
  match l with
  | [] => []
  | x :: rest => insert_desc x (sort_desc rest)
  end.

(** [s.value_counts()]: one row per distinct value, most frequent first. *)
Definition value_counts (s : list string) : list (string * nat) :=
  sort_desc (tally s).

(** [s.head(n)]: the first [n] rows; a negative [n] leaves out the last
    [-n] rows instead. *)
Definition head {A : Type} (n : Z) (l : list A) : list A :=
  if (0 <=? n)%Z then firstn (Z.to_nat n) l
  else firstn (List.length l - Z.to_nat (- n)) l.

(** [get_top_vehicle_brands(make_series, top_n)]. *)
Definition get_top_vehicle_brands (make_series : list string) (top_n : Z)
  : M (list (string * nat)) :=
  match make_series with
  | [] => emit (Print EmptySeries) ;; ret []
  | _ :: _ => ret (head top_n (value_counts make_series))
  end.

(** Line 138 over any [sort] in the place of the sort inside
    [value_counts]. *)
Definition value_counts_with (sort : list (string * nat) -> list (string * nat))
    (s : list string) : list (string * nat) :=
  sort (tally s).

Definition get_top_vehicle_brands_with
    (sort : list (string * nat) -> list (string * nat))
    (make_series : list string) (top_n : Z) : M (list (string * nat)) :=
  match make_series with
  | [] => emit (Print EmptySeries) ;; ret []
  | _ :: _ => ret (head top_n (value_counts_with sort make_series))
  end.

(** Another descending sort: an entry moves behind the entries of equal
    count to its right, as when an ascending order is read backwards. *)
Fixpoint insert_desc_late (x : string * nat) (l : list (string * nat))
  : list (string * nat) :=
  match l with
  | [] => [x]
  | y :: rest => if snd x <=? snd y then y :: insert_desc_late x rest else x :: l
  end.

Fixpoint sort_desc_late (l : list (string * nat)) : list (string * nat) :=
  match l with
  | [] => []
  | x :: rest => insert_desc_late x (sort_desc_late rest)
  end.

(* ------------------------------------------------------------------ *)
(** ** Step 4: plot *)

(** [plot_top_brands(brand_counts)]. *)
Definition plot_top_brands (brand_counts : list (string * nat)) : M unit :=
  match brand_counts with
  | [] => emit (Print NothingToPlot)
  | _ :: _ =>
      emit (ShowChart {| title := "Top Vehicle Brands in Crashes";
                         xlabel := "Vehicle Brand";
                         ylabel := "Crash Count";
                         bars := brand_counts |})
  end.

(* ------------------------------------------------------------------ *)
(** ** Step 5: the report file and [main] *)

(** The name pandas gives the column of counts. *)
Definition count_label : string := "count".

(** [series.to_csv(path, index_label=...)] as rows of fields: the header,
    then one row per entry of the series, top to bottom. *)
Definition to_csv (index_label : string) (series : list (string * nat))
  : list (list string) :=
  [index_label; count_label]
  :: map (fun entry => [fst entry; str_of_nat (snd entry)]) series.

(** Reading a data row back. *)
Definition parse_row (row : list string) : option (string * nat) :=
  match row with
  | [brand; count] =>
      match NilZero.uint_of_string count with
      | Some d => Some (brand, Nat.of_uint d)
      | None => None
      end
  | _ => None
  end.

Definition csv_path : string := "outputs/top_vehicle_brands.csv".

(** Lines 191-201: what [main] does with the ranking. *)
Definition report (top_brands : list (string * nat)) : M unit :=
  match top_brands with
  | _ :: _ =>
      emit (Print (TopBrands top_brands)) ;;
      emit (WriteCsv csv_path (to_csv "Vehicle Brand" top_brands)) ;;
      emit (Print (Saved csv_path)) ;;
      plot_top_brands top_brands
  | [] => emit (Print NoTopBrands)
  end.

(** Lines 180-201: [main] from the fetched data on. *)
Definition pipeline (crash_data : value) : M unit :=
  if negb (truthy crash_data) then emit (Print NoDataRetrieved)
  else
    make_series <- extract_vehicle_makes crash_data ;;
    match make_series with
    | [] => emit (Print CannotProceed)
    | _ :: _ =>
        top_brands <- get_top_vehicle_brands make_series 10 ;;
        report top_brands
    end.

(** [main()], given the access key, the remote end and whether the output
    directory is already there. *)
Definition main (api_key : string) (net : request -> reply) (dir_exists : bool) : M unit :=
  let year := 2023%Z in
  let state := Some "MI" in
  let output_dir := "outputs" in
  (if negb dir_exists
   then emit (MakeDirs output_dir) ;; emit (Print (CreatedDirectory output_dir))
   else ret tt) ;;
  crash_data <- fetch_crash_data api_key net year state ;;
  pipeline crash_data.

(* ------------------------------------------------------------------ *)
(** ** Vocabulary of the statements *)

(** The manufacturer field of a record as the loop reads it. *)
Definition vehicle_make_of (r : record) : value :=
  match dict_get "vehicleMake" r with
  | Some v => v
  | None => VNone
  end.

Definition make_text (r : record) : string := strip (py_str (vehicle_make_of r)).

(** What one record adds to the output. *)
Definition kept_make (r : record) : list string :=
  if truthy (vehicle_make_of r) then [make_text r] else [].

(** The extractor read off section 4.2 of the specification: a record
    counts when its field is present and its text, after [str] and
    [strip], is not empty. *)
Definition extract_makes_spec (rs : list record) : list string :=
  flat_map
    (fun r => match dict_get "vehicleMake" r with
              | Some v => if String.eqb (strip (py_str v)) "" then [] else [strip (py_str v)]
              | None => []
              end) rs.

(** [l1] is [l2] with some elements left out. *)
Inductive subsequence {A : Type} : list A -> list A -> Prop :=
| subseq_nil : subsequence [] []
| subseq_skip : forall x l1 l2, subsequence l1 l2 -> subsequence l1 (x :: l2)
| subseq_keep : forall x l1 l2, subsequence l1 l2 -> subsequence (x :: l1) (x :: l2).

Definition has_leading_space (s : string) : bool :=
  match s with
  | EmptyString => false
  | String c _ => is_space c
  end.

Fixpoint has_trailing_space (s : string) : bool :=
  match s with
  | EmptyString => false
  | String c EmptyString => is_space c
  | String _ r => has_trailing_space r
  end.

(** Values that have a length. *)
Definition sized (v : value) : bool :=
  match v with
  | VStr _ | VList _ | VDict _ => true
  | _ => false
  end.

(** The first element of the list under ["Results"], when the body is an
    object holding a non-empty list there. *)
Definition envelope_first (data : value) : option value :=
  match data with
  | VDict kvs =>
      match dict_get "Results" kvs with
      | Some (VList (first :: _)) => Some first
      | _ => None
      end
  | _ => None
  end.

Definition is_record (v : value) : bool :=
  match v with VDict _ => true | _ => false end.

Definition is_record_list (v : value) : bool :=
  match v with VList xs => forallb is_record xs | _ => false end.

(** The fetcher's answer to a body as section 4.1 of the specification
    words it: the first element when it is a list of records, no data for
    every other shape. *)
Definition fetch_shape_spec (data : value) : value :=
  match envelope_first data with
  | Some first => if is_record_list first then first else VList []
  | None => VList []
  end.

(** A status [raise_for_status] lets through. *)
Definition status_ok (status : nat) : bool :=
  negb ((400 <=? status) && (status <? 600)).

Definition is_ascii (s : string) : bool :=
  forallb (fun c => nat_of_ascii c <? 128) (list_ascii_of_string s).

(** [up] is [str.upper] as far as ASCII text goes. *)
Definition upper_on_ascii (up : string -> string) : Prop :=
  forall t, is_ascii t = true -> up t = upper t.

(** Case-insensitive equality of two texts. *)
Definition eq_ignore_case_with (up : string -> string) (a b : string) : bool :=
  String.eqb (up a) (up b).

(** The region code as section 4.1 of the specification words it: every
    region text has one, the table's or the text in upper case. *)
Definition resolve_region_spec (region : string) : option string :=
  Some (state_code_of region).

(** Events that leave something behind: the file and the chart. *)
Definition is_output (e : event) : bool := is_write_csv e || is_show_chart e.

Definition is_make_dirs (e : event) : bool :=
  match e with MakeDirs _ => true | _ => false end.

(** Events that reach outside the console, the file and the chart. *)
Definition is_remote_or_dirs (e : event) : bool := is_http_get e || is_make_dirs e.

(** The count on record for [k] in a ranking, zero when it has no entry. *)
Definition count_in (k : string) (counts : list (string * nat)) : nat :=
  match dict_get k counts with
  | Some c => c
  | None => 0
  end.

(** The exception, if any, the extractor ends with: a value that is
    true but cannot be looped over is a [TypeError], an item of the loop
    that has no [get] is an [AttributeError]. *)
Definition extract_failure (crash_data : value) : option exn :=
  if negb (truthy crash_data) then None
  else match crash_data with
       | VList xs => if forallb is_record xs then None else Some AttributeError
       | VStr _ | VDict _ => Some AttributeError
       | _ => Some TypeError
       end.

(** The four events of a report, in the order [main] issues them. *)
Definition report_events (top_brands : list (string * nat)) : list event :=
  [ Print (TopBrands top_brands);
    WriteCsv csv_path (to_csv "Vehicle Brand" top_brands);
    Print (Saved csv_path);
    ShowChart {| title := "Top Vehicle Brands in Crashes";
                 xlabel := "Vehicle Brand";
                 ylabel := "Crash Count";
                 bars := top_brands |} ].

(** Position of the first occurrence of [k] in [s]. *)
Fixpoint index_of (k : string) (s : list string) : option nat :=
  match s with
  | [] => None
  | x :: rest => if String.eqb k x then Some 0 else option_map S (index_of k rest)
  end.

(** Number of distinct values of [s]. *)
Definition distinct (s : list string) : nat := List.length (nodup string_dec s).

(** Sum of the counts of a ranking. *)
Definition total (counts : list (string * nat)) : nat := list_sum (map snd counts).

(** [x] stands somewhere to the left of [y] in [l]. *)
Definition before {A : Type} (l : list A) (x y : A) : Prop :=
  exists l1 l2 l3, l = l1 ++ x :: l2 ++ y :: l3.

(** The keys of a tally after one more value. *)
Definition add_key (k : string) (keys : list string) : list string :=
  if existsb (String.eqb k) keys then keys else keys ++ [k].

(** Descending order of counts. *)
Definition count_ge (x y : string * nat) : Prop := snd y <= snd x.

(** What pandas promises of the sort inside [value_counts]: the same rows,
    most frequent first. *)
Definition sorts_descending (sort : list (string * nat) -> list (string * nat)) : Prop :=
  forall l, Permutation (sort l) l /\ StronglySorted count_ge (sort l).

(** Entries of equal count stand in the order in which their values first
    appear in [makes]. *)
Definition ties_in_first_seen_order (makes : list string) (out : list (string * nat))
  : Prop :=
  forall i j x y,
    i < j -> nth_error out i = Some x -> nth_error out j = Some y ->
    snd x = snd y ->
    exists ia ib,
      index_of (fst x) makes = Some ia /\ index_of (fst y) makes = Some ib /\ ia < ib.

(* ================================================================== *)
(** * Properties *)

(** ** Runs *)

Lemma result_bind {A B : Type} (m : M A) (k : A -> M B) :
  result (bind m k) =
  match result m with
  | Returned a => result (k a)
  | Raised e => Raised e
  end.
Proof. unfold result, bind. destruct (snd m); reflexivity. Qed.

Lemma events_bind {A B : Type} (m : M A) (k : A -> M B) :
  events (bind m k) =
  match result m with
  | Returned a => events m ++ events (k a)
  | Raised _ => events m
  end.
Proof. unfold events, result, bind. destruct (snd m); reflexivity. Qed.

Lemma bind_returned {A B : Type} (ev : list event) (a : A) (k : A -> M B) :
  bind (ev, Returned a) k = (ev ++ events (k a), result (k a)).
Proof. reflexivity. Qed.

Lemma run_eta {A : Type} (m : M A) : m = (events m, result m).
Proof. destruct m; reflexivity. Qed.

(** ** Text *)

Lemma lstrip_no_leading_space (s : string) : has_leading_space (lstrip s) = false.
Proof.
  induction s as [|c r IH]; simpl; [reflexivity|].
  destruct (is_space c) eqn:E; [exact IH | simpl; exact E].
Qed.

Lemma rstrip_keeps_head (c : ascii) (r : string) :
  is_space c = false -> exists r', rstrip (String c r) = String c r'.
Proof.
  intros E. simpl. destruct (rstrip r).
  - rewrite E. eauto.
  - eauto.
Qed.

Lemma rstrip_idempotent (s : string) : rstrip (rstrip s) = rstrip s.
Proof.
  induction s as [|c r IH]; simpl; [reflexivity|].
  destruct (rstrip r) as [|c' r'] eqn:E.
  - destruct (is_space c) eqn:Ec; simpl; [reflexivity | rewrite Ec; reflexivity].
  - change (rstrip (String c (String c' r'))) with
      (match rstrip (String c' r') with
       | EmptyString => if is_space c then EmptyString else String c EmptyString
       | String a b => String c (String a b)
       end).
    rewrite IH. reflexivity.
Qed.

Lemma rstrip_no_trailing_space (s : string) : has_trailing_space (rstrip s) = false.
Proof.
  induction s as [|c r IH]; simpl; [reflexivity|].
  destruct (rstrip r) as [|c' r'] eqn:E.
  - destruct (is_space c) eqn:Ec; simpl; [reflexivity | exact Ec].
  - exact IH.
Qed.

Lemma strip_idempotent (s : string) : strip (strip s) = strip s.
Proof.
  unfold strip.
  pose proof (lstrip_no_leading_space s) as H.
  destruct (lstrip s) as [|c r] eqn:E; [reflexivity|].
  simpl in H. destruct (rstrip_keeps_head c r H) as [r' Hr].
  rewrite Hr. simpl. rewrite H. rewrite <- Hr. apply rstrip_idempotent.
Qed.

Lemma strip_no_leading_space (s : string) : has_leading_space (strip s) = false.
Proof.
  unfold strip.
  pose proof (lstrip_no_leading_space s) as H.
  destruct (lstrip s) as [|c r] eqn:E; [reflexivity|].
  simpl in H. destruct (rstrip_keeps_head c r H) as [r' Hr].
  rewrite Hr. exact H.
Qed.

(** ** The extractor *)

Lemma extract_step_record (makes : list string) (r : record) :
  extract_step makes (VDict r) = ([], Returned (makes ++ kept_make r)).
Proof.
  unfold extract_step, kept_make, make_text, vehicle_make_of. simpl.
  unfold bind; simpl.
  destruct (dict_get "vehicleMake" r) as [v|]; simpl.
  - destruct (truthy v); simpl; [reflexivity | rewrite app_nil_r; reflexivity].
  - rewrite app_nil_r; reflexivity.
Qed.

Lemma for_each_records (rs : list record) (acc : list string) :
  for_each (map VDict rs) acc extract_step
  = ([], Returned (acc ++ flat_map kept_make rs)).
Proof.
  revert acc. induction rs as [|r rs IH]; intros acc; simpl.
  - rewrite app_nil_r. reflexivity.
  - rewrite extract_step_record, bind_returned, IH. simpl.
    rewrite <- app_assoc. reflexivity.
Qed.

Lemma extract_records_result (rs : list record) :
  result (extract_vehicle_makes (records rs)) = Returned (flat_map kept_make rs).
Proof.
  unfold extract_vehicle_makes, records.
  destruct rs as [|r rs]; [reflexivity|].
  change (truthy (VList (map VDict (r :: rs)))) with true. cbv beta iota delta [negb].
  change (lift (py_iter (VList (map VDict (r :: rs)))))
    with (@ret (list value) (map VDict (r :: rs))).
  unfold ret at 1. rewrite bind_returned, for_each_records, bind_returned.
  generalize (flat_map kept_make (r :: rs)). intros out.
  destruct out; reflexivity.
Qed.

Lemma kept_make_trimmed (r : record) (s : string) :
  In s (kept_make r) -> strip s = s.
Proof.
  unfold kept_make, make_text. destruct (truthy (vehicle_make_of r)); simpl; [|tauto].
  intros [<-|[]]. apply strip_idempotent.
Qed.

Lemma flat_map_kept_length (rs : list record) :
  List.length (flat_map kept_make rs) <= List.length rs.
Proof.
  induction rs as [|r rs IH]; simpl; [lia|].
  rewrite length_app. unfold kept_make at 1.
  destruct (truthy (vehicle_make_of r)); simpl; lia.
Qed.

Lemma flat_map_kept_subsequence (rs : list record) :
  exists kept, subsequence kept rs /\ flat_map kept_make rs = map make_text kept.
Proof.
  induction rs as [|r rs (kept & Hsub & Heq)]; simpl.
  - exists []. split; [constructor | reflexivity].
  - unfold kept_make at 1. destruct (truthy (vehicle_make_of r)); simpl.
    + exists (r :: kept). split; [now constructor | now rewrite Heq].
    + exists kept. split; [now constructor | exact Heq].
Qed.

(** C1, as the specification words it, fails: a field holding only
    blanks is true in [if vehicle_make:], so the record is kept and its
    trimmed text, the empty string, lands in the output. *)
Lemma extract_blank_field_kept :
  result (extract_vehicle_makes (records [[("vehicleMake", VStr "   ")]]))
    = Returned [""]
  /\ extract_makes_spec [[("vehicleMake", VStr "   ")]] = []
  /\ result (extract_vehicle_makes (records [[("vehicleMake", VStr "   ")]]))
     <> Returned (extract_makes_spec [[("vehicleMake", VStr "   ")]]).
Proof.
  split; [reflexivity|]. split; [reflexivity|]. vm_compute. discriminate.
Qed.

(** C1 (amended): a record contributes exactly when its manufacturer
    field is present and its raw value is true in Python's sense (not
    [None], [False], zero, the empty string or an empty container); what it
    contributes is [str(value).strip()], so every output string is trimmed,
    and a string field whose trimmed text is not empty is always kept. *)
Theorem extract_keeps_truthy_fields (rs : list record) :
  result (extract_vehicle_makes (records rs))
    = Returned
        (flat_map
           (fun r => match dict_get "vehicleMake" r with
                     | Some v => if truthy v then [strip (py_str v)] else []
                     | None => []
                     end) rs)
  /\ (forall makes s,
        result (extract_vehicle_makes (records rs)) = Returned makes ->
        In s makes ->
        strip s = s /\ has_leading_space s = false /\ has_trailing_space s = false)
  /\ (forall r t,
        dict_get "vehicleMake" r = Some (VStr t) -> strip t <> "" ->
        kept_make r = [strip t]).
Proof.
  split; [|split].
  - rewrite extract_records_result. f_equal.
    apply flat_map_ext. intros r. unfold kept_make, make_text, vehicle_make_of.
    destruct (dict_get "vehicleMake" r); reflexivity.
  - intros makes s Hres Hin. rewrite extract_records_result in Hres.
    injection Hres as <-. apply in_flat_map in Hin. destruct Hin as (r & _ & Hin).
    pose proof (kept_make_trimmed r s Hin) as Hs. split; [exact Hs|].
    rewrite <- Hs. split; [apply strip_no_leading_space | apply rstrip_no_trailing_space].
  - intros r t Hget Hne. unfold kept_make, make_text, vehicle_make_of.
    rewrite Hget. simpl. destruct t; [now elim Hne | reflexivity].
Qed.

(** C7: on every record list the extractor returns, its output is no
    longer than the input, the texts come from a subsequence of the records
    in input order, and the empty list gives the empty output. *)
Theorem extract_length_and_order (rs : list record) :
  exists makes kept,
    result (extract_vehicle_makes (records rs)) = Returned makes
    /\ List.length makes <= List.length rs
    /\ subsequence kept rs
    /\ makes = map make_text kept
    /\ result (extract_vehicle_makes (records [])) = Returned [].
Proof.
  destruct (flat_map_kept_subsequence rs) as (kept & Hsub & Heq).
  exists (flat_map kept_make rs), kept.
  split; [apply extract_records_result|].
  split; [apply flat_map_kept_length|].
  split; [exact Hsub|]. split; [exact Heq | reflexivity].
Qed.

(** C10: extraction distributes over concatenation of record lists. *)
Theorem extract_app (xs ys : list record) :
  exists a b,
    result (extract_vehicle_makes (records xs)) = Returned a
    /\ result (extract_vehicle_makes (records ys)) = Returned b
    /\ result (extract_vehicle_makes (records (xs ++ ys))) = Returned (a ++ b).
Proof.
  exists (flat_map kept_make xs), (flat_map kept_make ys).
  rewrite !extract_records_result, flat_map_app. auto.
Qed.

(** ** Lists: [before] *)

Section Before.
Context {A : Type}.
Implicit Types (l : list A) (x y a : A).

Lemma before_nil x y : ~ before (@nil A) x y.
Proof. intros (l1 & l2 & l3 & H). destruct l1; discriminate. Qed.

Lemma before_cons a l x y : before l x y -> before (a :: l) x y.
Proof. intros (l1 & l2 & l3 & ->). exists (a :: l1), l2, l3. reflexivity. Qed.

Lemma before_head a l y : In y l -> before (a :: l) a y.
Proof.
  intros H. apply in_split in H. destruct H as (l2 & l3 & ->).
  exists [], l2, l3. reflexivity.
Qed.

Lemma before_cons_inv a l x y :
  before (a :: l) x y -> (x = a /\ In y l) \/ before l x y.
Proof.
  intros (l1 & l2 & l3 & H). destruct l1 as [|b l1]; simpl in H.
  - injection H as -> ->. left. split; [reflexivity|].
    apply in_or_app. right. left. reflexivity.
  - injection H as -> ->. right. exists l1, l2, l3. reflexivity.
Qed.

Lemma before_app_l l l' x y : before l x y -> before (l ++ l') x y.
Proof.
  intros (l1 & l2 & l3 & ->). exists l1, l2, (l3 ++ l').
  rewrite <- !app_assoc. simpl. rewrite <- app_assoc. reflexivity.
Qed.

Lemma before_of_positions l i j x y :
  i < j -> nth_error l i = Some x -> nth_error l j = Some y -> before l x y.
Proof.
  intros Hij Hi Hj.
  apply nth_error_split in Hj. destruct Hj as (l1 & l3 & -> & Hlen).
  rewrite nth_error_app1 in Hi by lia.
  apply nth_error_split in Hi. destruct Hi as (l0 & l2 & -> & _).
  exists l0, l2, l3. rewrite <- app_assoc. reflexivity.
Qed.

Lemma before_sorted (R : A -> A -> Prop) l x y :
  StronglySorted R l -> before l x y -> R x y.
Proof.
  induction 1 as [|a l Hs IH Hall]; intros Hb.
  - now apply before_nil in Hb.
  - apply before_cons_inv in Hb. destruct Hb as [[-> Hin]|Hb].
    + rewrite Forall_forall in Hall. now apply Hall.
    + now apply IH.
Qed.
End Before.

(** ** Counting *)

Lemma existsb_eqb_In (k : string) (keys : list string) :
  existsb (String.eqb k) keys = true <-> In k keys.
Proof.
  rewrite existsb_exists. split.
  - intros (x & Hin & Heq). apply String.eqb_eq in Heq. now subst.
  - intros Hin. exists k. split; [exact Hin | apply String.eqb_refl].
Qed.

Lemma keys_bump (k : string) (counts : list (string * nat)) :
  map fst (bump k counts) = add_key k (map fst counts).
Proof.
  unfold add_key. induction counts as [|[k' c] counts IH]; simpl; [reflexivity|].
  destruct (String.eqb k k'); simpl; [reflexivity|].
  rewrite IH. destruct (existsb (String.eqb k) (map fst counts)); reflexivity.
Qed.

Lemma total_bump (k : string) (counts : list (string * nat)) :
  total (bump k counts) = S (total counts).
Proof.
  unfold total. induction counts as [|[k' c] counts IH]; simpl; [reflexivity|].
  destruct (String.eqb k k'); simpl; [reflexivity|]. rewrite IH. lia.
Qed.

Lemma tally_snoc (s : list string) (k : string) :
  tally (s ++ [k]) = bump k (tally s).
Proof. unfold tally. rewrite fold_left_app. reflexivity. Qed.

Lemma In_add_key (a k : string) (keys : list string) :
  In a (add_key k keys) <-> In a keys \/ a = k.
Proof.
  unfold add_key. destruct (existsb (String.eqb k) keys) eqn:E.
  - apply existsb_eqb_In in E. split; [auto|]. intros [H| ->]; assumption.
  - rewrite in_app_iff. simpl. intuition congruence.
Qed.

Lemma keys_tally_In (s : list string) (a : string) :
  In a (map fst (tally s)) <-> In a s.
Proof.
  induction s as [|k s IH] using rev_ind; [reflexivity|].
  rewrite tally_snoc, keys_bump, In_add_key, IH, in_app_iff. simpl. intuition congruence.
Qed.

Lemma keys_tally_NoDup (s : list string) : NoDup (map fst (tally s)).
Proof.
  induction s as [|k s IH] using rev_ind; [constructor|].
  rewrite tally_snoc, keys_bump. unfold add_key.
  destruct (existsb (String.eqb k) (map fst (tally s))) eqn:E; [exact IH|].
  apply NoDup_app; [exact IH | repeat constructor; simpl; tauto |].
  intros x Hx [<-|[]].
  apply existsb_eqb_In in Hx. congruence.
Qed.

Lemma length_tally (s : list string) : List.length (tally s) = distinct s.
Proof.
  unfold distinct. rewrite <- (length_map fst (tally s)).
  apply Permutation_length, NoDup_Permutation.
  - apply keys_tally_NoDup.
  - apply NoDup_nodup.
  - intros x. rewrite keys_tally_In, nodup_In. reflexivity.
Qed.

Lemma total_tally (s : list string) : total (tally s) = List.length s.
Proof.
  induction s as [|k s IH] using rev_ind; [reflexivity|].
  rewrite tally_snoc, total_bump, IH, length_app. simpl. lia.
Qed.

(** ** Sorting *)

Lemma insert_desc_perm (x : string * nat) (l : list (string * nat)) :
  Permutation (insert_desc x l) (x :: l).
Proof.
  induction l as [|y l IH]; simpl; [reflexivity|].
  destruct (snd x <? snd y); [|reflexivity].
  rewrite IH. apply perm_swap.
Qed.

Lemma sort_desc_perm (l : list (string * nat)) : Permutation (sort_desc l) l.
Proof.
  induction l as [|x l IH]; simpl; [reflexivity|].
  rewrite insert_desc_perm. now constructor.
Qed.

Lemma total_perm (l l' : list (string * nat)) :
  Permutation l l' -> total l = total l'.
Proof.
  unfold total. induction 1; simpl; lia.
Qed.

Lemma insert_desc_sorted (x : string * nat) (l : list (string * nat)) :
  StronglySorted count_ge l -> StronglySorted count_ge (insert_desc x l).
Proof.
  induction 1 as [|y l Hs IH Hall]; simpl.
  - repeat constructor.
  - destruct (snd x <? snd y) eqn:E.
    + apply Nat.ltb_lt in E. constructor; [exact IH|].
      apply (Permutation_Forall (Permutation_sym (insert_desc_perm x l))).
      constructor; [unfold count_ge; lia | exact Hall].
    + apply Nat.ltb_ge in E. constructor; [now constructor|].
      constructor; [exact E|].
      apply (Forall_impl _ (P := count_ge y)); [|exact Hall].
      unfold count_ge. intros z Hz. lia.
Qed.

Lemma sort_desc_sorted (l : list (string * nat)) : StronglySorted count_ge (sort_desc l).
Proof.
  induction l as [|x l IH]; simpl; [constructor | now apply insert_desc_sorted].
Qed.

(** ** The aggregator *)

Lemma head_is_prefix {A : Type} (n : Z) (l : list A) : exists m, head n l = firstn m l.
Proof. unfold head. destruct (0 <=? n)%Z; eauto. Qed.

Lemma before_head_inv {A : Type} (n : Z) (l : list A) (x y : A) :
  before (head n l) x y -> before l x y.
Proof.
  destruct (head_is_prefix n l) as (m & ->). intros H.
  rewrite <- (firstn_skipn m l). now apply before_app_l.
Qed.

Lemma length_head {A : Type} (n : Z) (l : list A) :
  Z.of_nat (List.length (head n l))
  = if (0 <=? n)%Z then Z.min n (Z.of_nat (List.length l))
    else Z.max 0 (Z.of_nat (List.length l) + n).
Proof.
  unfold head. destruct (0 <=? n)%Z eqn:E; rewrite length_firstn.
  - apply Z.leb_le in E. lia.
  - apply Z.leb_gt in E. lia.
Qed.

Lemma total_firstn (m : nat) (l : list (string * nat)) : total (firstn m l) <= total l.
Proof.
  rewrite <- (firstn_skipn m l) at 2. unfold total.
  rewrite map_app, list_sum_app. lia.
Qed.

Lemma sorted_firstn (m : nat) (l : list (string * nat)) :
  StronglySorted count_ge l -> StronglySorted count_ge (firstn m l).
Proof.
  revert m. induction l as [|x l IH]; intros m Hs; destruct m; simpl; try constructor.
  - apply IH. now inversion Hs.
  - inversion Hs as [|? ? _ Hall]; subst. rewrite Forall_forall in *.
    intros y Hy. apply Hall. rewrite <- (firstn_skipn m l). apply in_or_app. now left.
Qed.

Lemma top_brands_result (makes : list string) (limit : Z) :
  result (get_top_vehicle_brands makes limit)
  = Returned (head limit (value_counts makes)).
Proof.
  destruct makes as [|k makes]; [|reflexivity].
  simpl. unfold head. cbn. destruct (0 <=? limit)%Z; [|reflexivity].
  now rewrite firstn_nil.
Qed.

Lemma length_value_counts (makes : list string) :
  List.length (value_counts makes) = distinct makes.
Proof.
  unfold value_counts. rewrite (Permutation_length (sort_desc_perm _)).
  apply length_tally.
Qed.

(** C5, as the specification words it, fails for a negative limit:
    [head(-1)] leaves out the last row, so two distinct values give one
    entry, which is not [min(-1, 2)]. *)
Lemma top_brands_negative_limit :
  result (get_top_vehicle_brands ["a"; "b"] (-1)) = Returned [("a", 1)]
  /\ Z.of_nat (List.length [("a", 1)]) <> Z.min (-1) (Z.of_nat (distinct ["a"; "b"])).
Proof. split; [reflexivity | vm_compute; discriminate]. Qed.

(** C5 (amended): for a limit that is not negative the ranking has exactly
    [min(limit, distinct values)] entries, and for a negative limit it has
    the distinct values less the last [-limit] of them; the counts never
    increase, they sum to at most the input length, and the empty input
    gives the empty ranking. *)
Theorem top_brands_size_and_total (makes : list string) (limit : Z) :
  exists out,
    result (get_top_vehicle_brands makes limit) = Returned out
    /\ Z.of_nat (List.length out)
       = (if (0 <=? limit)%Z
          then Z.min limit (Z.of_nat (distinct makes))
          else Z.max 0 (Z.of_nat (distinct makes) + limit))
    /\ StronglySorted count_ge out
    /\ total out <= List.length makes
    /\ result (get_top_vehicle_brands [] limit) = Returned [].
Proof.
  exists (head limit (value_counts makes)).
  split; [apply top_brands_result|].
  split; [rewrite length_head, length_value_counts; reflexivity|].
  destruct (head_is_prefix limit (value_counts makes)) as (m & ->).
  split; [apply sorted_firstn, sort_desc_sorted|].
  split; [|reflexivity].
  etransitivity; [apply total_firstn|]. unfold value_counts.
  rewrite (total_perm _ _ (sort_desc_perm _)), total_tally. lia.
Qed.

(** ** The fetcher *)

Lemma result_try_except {A : Type} (m : M A) (handler : exn -> M A) :
  result (try_except m handler)
  = match result m with
    | Returned a => Returned a
    | Raised e => result (handler e)
    end.
Proof. unfold result, try_except. destruct m as [ev [a|e]]; reflexivity. Qed.

Lemma events_try_except {A : Type} (m : M A) (handler : exn -> M A) :
  events (try_except m handler)
  = match result m with
    | Returned _ => events m
    | Raised e => events m ++ events (handler e)
    end.
Proof. unfold events, result, try_except. destruct m as [ev [a|e]]; reflexivity. Qed.

Lemma fetch_handler_result (e : exn) : result (fetch_handler e) = Returned (VList []).
Proof. destruct e; reflexivity. Qed.

Lemma fetch_handler_events (e : exn) : filter is_http_get (events (fetch_handler e)) = [].
Proof. destruct e; reflexivity. Qed.

Lemma fetch_with_placeholder (net : request -> reply) (year : Z) (state : option string) :
  fetch_crash_data NHTSA_API_KEY net year state
  = ([Print PlaceholderKey], Returned (VList [])).
Proof. reflexivity. Qed.

Lemma fetch_with_key (api_key : string) (net : request -> reply) (year : Z)
    (state : option string) :
  String.eqb api_key NHTSA_API_KEY = false ->
  fetch_crash_data api_key net year state
  = try_except
      (fetch_body net (build_request api_key year state) year (resolve_state state))
      fetch_handler.
Proof. unfold fetch_crash_data, NHTSA_API_KEY. intros ->. reflexivity. Qed.

Ltac run_steps :=
  repeat first
    [ rewrite result_bind
    | progress cbn [result events fst snd ret raise emit lift negb
                    py_get response_json raise_for_status status_code content] ].

(** What the body of the [try] comes to, reply by reply. *)
Lemma fetch_body_result (net : request -> reply) (r : request) (year : Z)
    (state_code : option string) :
  result (fetch_body net r year state_code)
  = match net r with
    | NoReply => Raised ConnectionError
    | Reply status reply_body =>
        if status_ok status then
          match reply_body with
          | NotJson => Raised JSONDecodeError
          | Json data =>
              match data with
              | VDict _ =>
                  match envelope_first data with
                  | Some first => if sized first then Returned first else Raised TypeError
                  | None => Returned (VList [])
                  end
              | _ => Raised AttributeError
              end
          end
        else Raised HTTPError
    end.
Proof.
  unfold fetch_body, requests_get.
  destruct (net r) as [|status reply_body]; [reflexivity|].
  unfold status_ok, raise_for_status, response_json. run_steps.
  destruct ((400 <=? status) && (status <? 600)); [reflexivity|]. run_steps.
  destruct reply_body as [|data]; [reflexivity|]. run_steps.
  destruct data as [|b|n|z t|t|xs|kvs]; try reflexivity. run_steps.
  unfold envelope_first.
  destruct (dict_get "Results" kvs) as [results|]; [|reflexivity].
  destruct results as [|b|n|z t|t|ys|ws]; try reflexivity;
    cbn [truthy isinstance_list]; rewrite ?andb_false_r; try reflexivity.
  destruct ys as [|first ys]; [reflexivity|].
  destruct first; reflexivity.
Qed.

Lemma fetch_body_requests (net : request -> reply) (r : request) (year : Z)
    (state_code : option string) :
  filter is_http_get (events (fetch_body net r year state_code)) = [HttpGet r].
Proof.
  unfold fetch_body, requests_get.
  destruct (net r) as [|status reply_body] eqn:E; [reflexivity|].
  unfold bind at 1 2 3. cbn [emit fst snd ret raise app].
  unfold raise_for_status. cbn [status_code].
  destruct ((400 <=? status) && (status <? 600)); [reflexivity|].
  destruct reply_body as [|data]; [reflexivity|].
  destruct data as [| | | | |xs|kvs]; try reflexivity.
  cbn [response_json content py_get lift bind fst snd ret app].
  destruct (dict_get "Results" kvs) as [results|]; [|reflexivity].
  destruct results as [|b|n|z t|t|ys|ws]; try reflexivity;
    cbn [truthy isinstance_list]; rewrite ?andb_false_r; try reflexivity.
  destruct ys as [|first ys]; [reflexivity|].
  destruct first; reflexivity.
Qed.

Lemma fetch_result (api_key : string) (net : request -> reply) (year : Z)
    (state : option string) :
  String.eqb api_key NHTSA_API_KEY = false ->
  result (fetch_crash_data api_key net year state)
  = match result (fetch_body net (build_request api_key year state) year
                    (resolve_state state)) with
    | Returned v => Returned v
    | Raised _ => Returned (VList [])
    end.
Proof.
  intros Hkey. rewrite (fetch_with_key _ _ _ _ Hkey), result_try_except.
  destruct (result (fetch_body _ _ _ _)); [reflexivity | apply fetch_handler_result].
Qed.

(** C3, as the specification words it, fails: nothing checks that the
    first element is a list, so an object found there is handed back. *)
Lemma fetch_returns_object_element :
  result (fetch_crash_data "key"
            (fun _ => Reply 200 (Json (VDict [("Results", VList [VDict [("a", VInt 1)]])])))
            2023 (Some "MI"))
    = Returned (VDict [("a", VInt 1)])
  /\ is_record_list (VDict [("a", VInt 1)]) = false
  /\ result (fetch_crash_data "key"
               (fun _ => Reply 200 (Json (VDict [("Results", VList [VDict [("a", VInt 1)]])])))
               2023 (Some "MI"))
     <> Returned (fetch_shape_spec (VDict [("Results", VList [VDict [("a", VInt 1)]])])).
Proof.
  split; [reflexivity|]. split; [reflexivity|]. vm_compute. discriminate.
Qed.

(** C3 (amended): for a decoded body that arrives with a passing status,
    the fetcher returns the first element of the list under ["Results"]
    whenever that field is present, holds a non-empty list, and the first
    element has a length (a list, an object or a string) - in particular
    whenever it is a list of records; a body that is not an object, a
    missing field, a field that is not a non-empty list, and a first
    element without a length (null, a boolean, a number) all give the
    empty list, and nothing is raised. *)
Theorem fetch_returns_first_sized_element
    (api_key : string) (net : request -> reply) (year : Z) (state : option string)
    (status : nat) (data : value) :
  String.eqb api_key NHTSA_API_KEY = false ->
  net (build_request api_key year state) = Reply status (Json data) ->
  status_ok status = true ->
  result (fetch_crash_data api_key net year state)
    = Returned (match envelope_first data with
                | Some first => if sized first then first else VList []
                | None => VList []
                end)
  /\ (forall first,
        envelope_first data = Some first -> is_record_list first = true ->
        result (fetch_crash_data api_key net year state) = Returned first).
Proof.
  intros Hkey Hnet Hstatus.
  assert (H : result (fetch_crash_data api_key net year state)
              = Returned (match envelope_first data with
                          | Some first => if sized first then first else VList []
                          | None => VList []
                          end)).
  { rewrite (fetch_result _ _ _ _ Hkey), fetch_body_result, Hnet, Hstatus.
    destruct data as [|b|n|z t|t|xs|kvs]; try reflexivity.
    destruct (envelope_first (VDict kvs)) as [first|]; [|reflexivity].
    destruct (sized first); reflexivity. }
  split; [exact H|].
  intros first Hfirst Hrecs. rewrite H, Hfirst.
  destruct first; try discriminate Hrecs. reflexivity.
Qed.

(** A list of one record under ["Results"] comes back as it is. *)
Lemma fetch_returns_first_sized_element_witness :
  String.eqb "key" NHTSA_API_KEY = false
  /\ status_ok 200 = true
  /\ result (fetch_crash_data "key"
               (fun _ => Reply 200
                           (Json (VDict [("Results",
                                          VList [VList [VDict [("vehicleMake", VStr "Ford")]]])])))
               2023 (Some "MI"))
     = Returned (VList [VDict [("vehicleMake", VStr "Ford")]]).
Proof.
  split; [reflexivity|]. split; [reflexivity|].
  apply (fetch_returns_first_sized_element "key"
           (fun _ => Reply 200
                       (Json (VDict [("Results",
                                      VList [VList [VDict [("vehicleMake", VStr "Ford")]]])])))
           2023 (Some "MI") 200
           (VDict [("Results", VList [VList [VDict [("vehicleMake", VStr "Ford")]]])]));
    reflexivity.
Defined.

(** C4, as the specification words it, fails for one class of
    unexpected shape: a string found as first element is handed back, not
    turned into the empty sequence. *)
Lemma fetch_returns_string_element :
  result (fetch_crash_data "key"
            (fun _ => Reply 200 (Json (VDict [("Results", VList [VStr "abc"])])))
            2023 None)
    = Returned (VStr "abc")
  /\ is_record_list (VStr "abc") = false
  /\ VStr "abc" <> VList [].
Proof.
  split; [reflexivity|]. split; [reflexivity | discriminate].
Qed.

(** C4 (amended): for an absent or textual region [fetch_crash_data] never
    raises.  With the placeholder key it prints one diagnostic, sends no
    request and returns the empty list; otherwise it sends exactly one
    request, and no reply, an error status, a body that is not JSON, a body
    that is not an object, a ["Results"] field that is missing or is not a
    non-empty list, and a first element without a length all give the empty
    list. *)
Theorem fetch_never_raises
    (api_key : string) (net : request -> reply) (year : Z) (state : option string) :
  (exists v, result (fetch_crash_data api_key net year state) = Returned v)
  /\ fetch_crash_data NHTSA_API_KEY net year state
     = ([Print PlaceholderKey], Returned (VList []))
  /\ (String.eqb api_key NHTSA_API_KEY = false ->
      filter is_http_get (events (fetch_crash_data api_key net year state))
        = [HttpGet (build_request api_key year state)]
      /\ (net (build_request api_key year state) = NoReply ->
          result (fetch_crash_data api_key net year state) = Returned (VList []))
      /\ (forall status reply_body,
            net (build_request api_key year state) = Reply status reply_body ->
            status_ok status = false \/ reply_body = NotJson ->
            result (fetch_crash_data api_key net year state) = Returned (VList []))
      /\ (forall status data,
            net (build_request api_key year state) = Reply status (Json data) ->
            envelope_first data = None
            \/ (exists first, envelope_first data = Some first /\ sized first = false) ->
            result (fetch_crash_data api_key net year state) = Returned (VList []))).
Proof.
  split; [|split; [reflexivity|]].
  - destruct (String.eqb api_key NHTSA_API_KEY) eqn:Hkey.
    + apply String.eqb_eq in Hkey. subst. eexists. reflexivity.
    + rewrite (fetch_result _ _ _ _ Hkey).
      destruct (result (fetch_body _ _ _ _)); eexists; reflexivity.
  - intros Hkey. split; [|split; [|split]].
    + rewrite (fetch_with_key _ _ _ _ Hkey), events_try_except.
      destruct (result (fetch_body _ _ _ _)) eqn:E.
      * apply fetch_body_requests.
      * rewrite filter_app, fetch_body_requests, fetch_handler_events. reflexivity.
    + intros Hnet. rewrite (fetch_result _ _ _ _ Hkey), fetch_body_result, Hnet. reflexivity.
    + intros status reply_body Hnet Hbad.
      rewrite (fetch_result _ _ _ _ Hkey), fetch_body_result, Hnet.
      destruct Hbad as [-> | ->]; [reflexivity|].
      destruct (status_ok status); reflexivity.
    + intros status data Hnet Hshape.
      rewrite (fetch_result _ _ _ _ Hkey), fetch_body_result, Hnet.
      destruct (status_ok status); [|reflexivity].
      destruct data as [|b|n|z t|t|xs|kvs]; try reflexivity.
      destruct Hshape as [-> | (first & -> & ->)]; reflexivity.
Qed.

(** A 503 reply gives the empty list. *)
Lemma fetch_never_raises_witness :
  String.eqb "key" NHTSA_API_KEY = false
  /\ status_ok 503 = false
  /\ result (fetch_crash_data "key" (fun _ => Reply 503 NotJson) 2023 (Some "MI"))
     = Returned (VList []).
Proof.
  split; [reflexivity|]. split; [reflexivity|].
  apply (proj1 (proj2 (proj2 (proj2 (proj2
           (fetch_never_raises "key" (fun _ => Reply 503 NotJson) 2023 (Some "MI")))
           eq_refl))) 503 NotJson eq_refl (or_introl eq_refl)).
Defined.

(** ** Region resolution *)

Lemma dict_get_absent {A : Type} (k : string) (kvs : list (string * A)) :
  (forall k' v, In (k', v) kvs -> String.eqb k k' = false) -> dict_get k kvs = None.
Proof.
  induction kvs as [|[k' v] kvs IH]; simpl; intros H; [reflexivity|].
  rewrite (H k' v) by now left. apply IH. intros k'' v' Hin. apply (H k'' v'). now right.
Qed.

Lemma upper_char_idempotent (c : ascii) : upper_char (upper_char c) = upper_char c.
Proof.
  unfold upper_char.
  destruct ((97 <=? nat_of_ascii c) && (nat_of_ascii c <=? 122)) eqn:E.
  - apply andb_true_iff in E. destruct E as [E1 E2].
    apply Nat.leb_le in E1. apply Nat.leb_le in E2.
    rewrite nat_ascii_embedding by lia.
    replace (97 <=? nat_of_ascii c - 32) with false; [reflexivity|].
    symmetry. apply Nat.leb_gt. lia.
  - rewrite E. reflexivity.
Qed.

Lemma upper_idempotent (s : string) : upper (upper s) = upper s.
Proof.
  induction s as [|c s IH]; simpl; [reflexivity|].
  now rewrite upper_char_idempotent, IH.
Qed.

(** ** The report *)

Lemma fetch_body_no_output (net : request -> reply) (r : request) (year : Z)
    (state_code : option string) :
  filter is_output (events (fetch_body net r year state_code)) = [].
Proof.
  unfold fetch_body, requests_get.
  destruct (net r) as [|status reply_body] eqn:E; [reflexivity|].
  unfold bind at 1 2 3. cbn [emit fst snd ret raise app].
  unfold raise_for_status. cbn [status_code].
  destruct ((400 <=? status) && (status <? 600)); [reflexivity|].
  destruct reply_body as [|data]; [reflexivity|].
  destruct data as [| | | | |xs|kvs]; try reflexivity.
  cbn [response_json content py_get lift bind fst snd ret app].
  destruct (dict_get "Results" kvs) as [results|]; [|reflexivity].
  destruct results as [|b|n|z t|t|ys|ws]; try reflexivity;
    cbn [truthy isinstance_list]; rewrite ?andb_false_r; try reflexivity.
  destruct ys as [|first ys]; [reflexivity|].
  destruct first; reflexivity.
Qed.

Lemma fetch_no_output (api_key : string) (net : request -> reply) (year : Z)
    (state : option string) :
  filter is_output (events (fetch_crash_data api_key net year state)) = [].
Proof.
  destruct (String.eqb api_key NHTSA_API_KEY) eqn:Hkey.
  - apply String.eqb_eq in Hkey. subst. reflexivity.
  - rewrite (fetch_with_key _ _ _ _ Hkey), events_try_except.
    destruct (result (fetch_body _ _ _ _)) as [v|e] eqn:E.
    + apply fetch_body_no_output.
    + rewrite filter_app, fetch_body_no_output. destruct e; reflexivity.
Qed.

Lemma parse_row_written (entry : string * nat) :
  parse_row [fst entry; str_of_nat (snd entry)] = Some entry.
Proof.
  destruct entry as [brand n]. unfold parse_row, str_of_nat. cbn [fst snd].
  pose proof (Unsigned.of_to n) as Hn.
  destruct (Nat.to_uint n) as [|d|d|d|d|d|d|d|d|d|d] eqn:E;
    [simpl in Hn; subst; reflexivity | ..];
    (rewrite NilZero.usu by discriminate; rewrite Hn; reflexivity).
Qed.

(** C8: an empty ranking makes the reporter print a warning and nothing
    else - no file, no chart - and the empty record list runs through the
    extractor and the aggregator to that outcome: each stage returns its
    empty result, and [main] on an empty fetch ends normally with a warning,
    no file written and no chart shown. *)
Theorem empty_ranking_reports_nothing
    (api_key : string) (net : request -> reply) (dir_exists : bool) (limit : Z) :
  plot_top_brands [] = ([Print NothingToPlot], Returned tt)
  /\ report [] = ([Print NoTopBrands], Returned tt)
  /\ extract_vehicle_makes (records []) = ([Print NoCrashData], Returned [])
  /\ get_top_vehicle_brands [] limit = ([Print EmptySeries], Returned [])
  /\ pipeline (records []) = ([Print NoDataRetrieved], Returned tt)
  /\ (result (fetch_crash_data api_key net 2023 (Some "MI")) = Returned (records []) ->
      result (main api_key net dir_exists) = Returned tt
      /\ filter is_write_csv (events (main api_key net dir_exists)) = []
      /\ filter is_show_chart (events (main api_key net dir_exists)) = []
      /\ existsb is_warning (events (main api_key net dir_exists)) = true).
Proof.
  repeat (split; [reflexivity|]).
  intros Hfetch. unfold main. cbv zeta.
  pose proof (fetch_no_output api_key net 2023 (Some "MI")) as Hquiet.
  set (run := fetch_crash_data api_key net 2023 (Some "MI")) in *.
  assert (Hcsv : filter is_write_csv (events run) = []).
  { clear -Hquiet. induction (events run) as [|e ev IH]; [reflexivity|].
    simpl in *. unfold is_output in Hquiet at 1.
    destruct (is_write_csv e); [discriminate | auto].
    apply IH. destruct (is_show_chart e); [discriminate | exact Hquiet]. }
  assert (Hchart : filter is_show_chart (events run) = []).
  { clear -Hquiet. induction (events run) as [|e ev IH]; [reflexivity|].
    simpl in *. unfold is_output in Hquiet at 1.
    destruct (is_show_chart e); [now rewrite orb_true_r in Hquiet|].
    apply IH. destruct (is_write_csv e); [discriminate | exact Hquiet]. }
  destruct dir_exists; cbn [negb];
    repeat first [ rewrite result_bind | rewrite events_bind | rewrite Hfetch
                 | progress cbn [result events fst snd emit ret] ];
    change (events (pipeline (records []))) with [Print NoDataRetrieved];
    change (result (pipeline (records []))) with (Returned tt);
    rewrite ?filter_app, ?Hcsv, ?Hchart, ?existsb_app;
    repeat split; try reflexivity;
    cbn; rewrite ?orb_true_r; reflexivity.
Qed.

(** With the shipped placeholder key [main] ends without a file. *)
Lemma empty_ranking_reports_nothing_witness :
  result (fetch_crash_data NHTSA_API_KEY (fun _ => NoReply) 2023 (Some "MI"))
    = Returned (records [])
  /\ result (main NHTSA_API_KEY (fun _ => NoReply) false) = Returned tt
  /\ filter is_write_csv (events (main NHTSA_API_KEY (fun _ => NoReply) false)) = [].
Proof.
  split; [reflexivity|].
  pose proof (proj2 (proj2 (proj2 (proj2 (proj2
    (empty_ranking_reports_nothing NHTSA_API_KEY (fun _ => NoReply) false 10)))))
    eq_refl) as H.
  split; [exact (proj1 H) | exact (proj1 (proj2 H))].
Defined.

Lemma to_csv_rows_parse (series : list (string * nat)) :
  map parse_row (map (fun entry => [fst entry; str_of_nat (snd entry)]) series)
  = map Some series.
Proof.
  induction series as [|entry series IH]; simpl; [reflexivity|].
  rewrite IH. f_equal. apply parse_row_written.
Qed.

(** C9: for a ranking that is not empty the reporter writes one file; its
    first row is the header, whose first column is [Vehicle Brand], and
    after it comes exactly one row per entry, row [i] reading back as entry
    [i] of the ranking: the rows are in ranking order, nothing is sorted
    again. *)
Theorem report_file_rows (top_brands : list (string * nat)) :
  top_brands <> [] ->
  exists header body,
    filter is_write_csv (events (report top_brands))
      = [WriteCsv csv_path (header :: body)]
    /\ hd_error header = Some "Vehicle Brand"
    /\ List.length body = List.length top_brands
    /\ map parse_row body = map Some top_brands
    /\ (forall i entry,
          nth_error top_brands i = Some entry ->
          nth_error body i = Some [fst entry; str_of_nat (snd entry)])
    /\ result (report top_brands) = Returned tt.
Proof.
  intros Hne. destruct top_brands as [|entry rest]; [now elim Hne|].
  exists ["Vehicle Brand"; count_label],
         (map (fun e => [fst e; str_of_nat (snd e)]) (entry :: rest)).
  split; [reflexivity|]. split; [reflexivity|].
  split; [apply length_map|]. split; [apply to_csv_rows_parse|].
  split; [|reflexivity].
  intros i e Hi. rewrite nth_error_map, Hi. reflexivity.
Qed.

(** The file of a two-entry ranking. *)
Lemma report_file_rows_witness :
  [("Ford", 2); ("GM", 2)] <> []
  /\ exists header body,
       filter is_write_csv (events (report [("Ford", 2); ("GM", 2)]))
         = [WriteCsv csv_path (header :: body)]
       /\ hd_error header = Some "Vehicle Brand"
       /\ List.length body = 2
       /\ map parse_row body = [Some ("Ford", 2); Some ("GM", 2)].
Proof.
  split; [discriminate|].
  destruct (report_file_rows [("Ford", 2); ("GM", 2)]) as (header & body & H);
    [discriminate|].
  exists header, body. tauto.
Defined.

(** A padded name is kept trimmed. *)
Lemma extract_keeps_truthy_fields_witness :
  dict_get "vehicleMake" [("vehicleMake", VStr " GM ")] = Some (VStr " GM ")
  /\ strip " GM " <> ""
  /\ kept_make [("vehicleMake", VStr " GM ")] = ["GM"].
Proof.
  split; [reflexivity|]. split; [discriminate|].
  apply (proj2 (proj2 (extract_keeps_truthy_fields [])) [("vehicleMake", VStr " GM ")] " GM ");
    [reflexivity | discriminate].
Defined.

(** ** The scenario of section 8, end to end *)

Example end_to_end_scenario :
  main "key"
    (fun _ => Reply 200
       (Json (VDict [("Results",
          VList [records [ [("vehicleMake", VStr "Ford")];
                           [("vehicleMake", VStr "ford")];
                           [("vehicleMake", VStr "")];
                           [];
                           [("vehicleMake", VStr "GM")] ]])])))
    true
  = ([ Print (Fetching " for 2023 (MI)");
       HttpGet (build_request "key" 2023 (Some "MI"));
       Print (Fetched 5);
       Print (TopBrands [("Ford", 1); ("ford", 1); ("GM", 1)]);
       WriteCsv csv_path
         [ ["Vehicle Brand"; "count"]; ["Ford"; "1"]; ["ford"; "1"]; ["GM"; "1"] ];
       Print (Saved csv_path);
       ShowChart {| title := "Top Vehicle Brands in Crashes";
                    xlabel := "Vehicle Brand";
                    ylabel := "Crash Count";
                    bars := [("Ford", 1); ("ford", 1); ("GM", 1)] |} ],
     Returned tt).
Proof. reflexivity. Qed.

(* ================================================================== *)
(** * Further properties of the stages *)

(** ** Counts are exact *)

Lemma dict_get_bump (a k : string) (counts : list (string * nat)) :
  dict_get a (bump k counts)
  = if String.eqb a k then Some (S (count_in k counts)) else dict_get a counts.
Proof.
  unfold count_in. induction counts as [|[k' c] counts IH]; simpl.
  - destruct (String.eqb a k); reflexivity.
  - destruct (String.eqb_spec k k') as [<-|Hkk']; simpl.
    + destruct (String.eqb a k); reflexivity.
    + rewrite IH.
      destruct (String.eqb_spec a k') as [->|Hak'].
      * destruct (String.eqb_spec k' k); [congruence | reflexivity].
      * reflexivity.
Qed.

Lemma dict_get_tally (s : list string) (a : string) :
  dict_get a (tally s)
  = if count_occ string_dec s a =? 0 then None else Some (count_occ string_dec s a).
Proof.
  induction s as [|k s IH] using rev_ind; [reflexivity|].
  rewrite tally_snoc, dict_get_bump, count_occ_app. simpl.
  destruct (String.eqb_spec a k) as [->|Hak].
  - unfold count_in. rewrite IH.
    destruct (string_dec k k); [|congruence].
    destruct (count_occ string_dec s k) as [|c]; simpl.
    + reflexivity.
    + replace (c + 1) with (S c) by lia. reflexivity.
  - destruct (string_dec k a); [congruence|]. rewrite Nat.add_0_r. exact IH.
Qed.

Lemma In_dict_get {A : Type} (k : string) (v : A) (kvs : list (string * A)) :
  NoDup (map fst kvs) -> In (k, v) kvs -> dict_get k kvs = Some v.
Proof.
  induction kvs as [|[k' v'] kvs IH]; simpl; [tauto|].
  intros Hnd [Heq|Hin].
  - injection Heq as -> ->. now rewrite String.eqb_refl.
  - inversion Hnd as [|? ? Hnotin Hnd']; subst.
    destruct (String.eqb_spec k k') as [->|_]; [|now apply IH].
    elim Hnotin. apply (in_map fst) in Hin. exact Hin.
Qed.

Lemma tally_entry (s : list string) (k : string) (c : nat) :
  In (k, c) (tally s) -> c = count_occ string_dec s k /\ 1 <= c /\ In k s.
Proof.
  intros Hin. apply (In_dict_get _ _ _ (keys_tally_NoDup s)) in Hin.
  rewrite dict_get_tally in Hin.
  destruct (count_occ string_dec s k =? 0) eqn:E; [discriminate|].
  injection Hin as <-. apply Nat.eqb_neq in E.
  split; [reflexivity|]. split; [lia|].
  apply (count_occ_In string_dec). lia.
Qed.

Lemma In_head {A : Type} (n : Z) (l : list A) (x : A) : In x (head n l) -> In x l.
Proof.
  destruct (head_is_prefix n l) as (m & ->). intros H.
  rewrite <- (firstn_skipn m l). apply in_or_app. now left.
Qed.

Lemma NoDup_firstn {A : Type} (m : nat) (l : list A) : NoDup l -> NoDup (firstn m l).
Proof.
  intros H. rewrite <- (firstn_skipn m l) in H. now apply NoDup_app_remove_r in H.
Qed.

Lemma keys_value_counts_NoDup (s : list string) : NoDup (map fst (value_counts s)).
Proof.
  unfold value_counts.
  apply (Permutation_NoDup (Permutation_map fst (Permutation_sym (sort_desc_perm _)))).
  apply keys_tally_NoDup.
Qed.

(** X1: every entry of the ranking carries the exact number of
    occurrences of its value in the input, which is at least one, and no
    value has two entries. *)
Theorem top_brands_counts_exact (makes : list string) (limit : Z) :
  exists out,
    result (get_top_vehicle_brands makes limit) = Returned out
    /\ NoDup (map fst out)
    /\ Forall (fun entry =>
                 snd entry = count_occ string_dec makes (fst entry)
                 /\ 1 <= snd entry
                 /\ In (fst entry) makes) out.
Proof.
  exists (head limit (value_counts makes)).
  split; [apply top_brands_result|]. split.
  - destruct (head_is_prefix limit (value_counts makes)) as (m & ->).
    rewrite <- firstn_map. apply NoDup_firstn, keys_value_counts_NoDup.
  - apply Forall_forall. intros [k c] Hin. apply In_head in Hin.
    unfold value_counts in Hin. apply (Permutation_in _ (sort_desc_perm _)) in Hin.
    now apply tally_entry.
Qed.

(** ** What the cut keeps *)

Lemma dict_get_Some_In {A : Type} (k : string) (v : A) (kvs : list (string * A)) :
  dict_get k kvs = Some v -> In (k, v) kvs.
Proof.
  induction kvs as [|[k' v'] kvs IH]; simpl; [discriminate|].
  destruct (String.eqb_spec k k') as [->|_].
  - intros [= ->]. now left.
  - intros H. right. now apply IH.
Qed.

Lemma value_counts_has (makes : list string) (a : string) :
  In a makes -> In (a, count_occ string_dec makes a) (value_counts makes).
Proof.
  intros Hin. unfold value_counts.
  apply (Permutation_in _ (Permutation_sym (sort_desc_perm _))).
  apply dict_get_Some_In. rewrite dict_get_tally.
  apply (count_occ_In string_dec) in Hin.
  destruct (count_occ string_dec makes a); [lia | reflexivity].
Qed.

Lemma sorted_across {A : Type} (R : A -> A -> Prop) (l1 l2 : list A) (x y : A) :
  StronglySorted R (l1 ++ l2) -> In x l1 -> In y l2 -> R x y.
Proof.
  intros Hs Hx Hy. apply (before_sorted R (l1 ++ l2)); [exact Hs|].
  apply in_split in Hx. destruct Hx as (a1 & a2 & ->).
  apply in_split in Hy. destruct Hy as (b1 & b2 & ->).
  exists a1, (a2 ++ b1), b2. rewrite <- !app_assoc. reflexivity.
Qed.

(** X2: the cut never drops a value in favour of a rarer one: a value of
    the input that has no entry in the ranking occurs at most as often as
    every value that has one. *)
Theorem top_brands_keeps_the_largest (makes : list string) (limit : Z) :
  exists out,
    result (get_top_vehicle_brands makes limit) = Returned out
    /\ forall a entry,
         In entry out -> In a makes -> ~ In a (map fst out) ->
         count_occ string_dec makes a <= snd entry.
Proof.
  exists (head limit (value_counts makes)).
  split; [apply top_brands_result|].
  destruct (head_is_prefix limit (value_counts makes)) as (m & ->).
  intros a entry Hentry Ha Hnot.
  pose proof (value_counts_has makes a Ha) as Hin.
  rewrite <- (firstn_skipn m (value_counts makes)) in Hin.
  apply in_app_or in Hin. destruct Hin as [Hin|Hin].
  - elim Hnot. apply (in_map fst) in Hin. exact Hin.
  - pose proof (sort_desc_sorted (tally makes)) as Hs.
    fold (value_counts makes) in Hs.
    rewrite <- (firstn_skipn m (value_counts makes)) in Hs.
    exact (sorted_across count_ge _ _ _ _ Hs Hentry Hin).
Qed.

(** Ford and GM fill the two places, so Kia, met once, is the one left out. *)
Lemma top_brands_keeps_the_largest_witness :
  exists out,
    result (get_top_vehicle_brands ["Kia"; "Ford"; "GM"; "Ford"; "GM"] 2) = Returned out
    /\ In ("GM", 2) out
    /\ ~ In "Kia" (map fst out)
    /\ count_occ string_dec ["Kia"; "Ford"; "GM"; "Ford"; "GM"] "Kia" <= 2.
Proof.
  destruct (top_brands_keeps_the_largest ["Kia"; "Ford"; "GM"; "Ford"; "GM"] 2)
    as (out & Hres & Hkeep).
  exists out. split; [exact Hres|].
  injection Hres as <-.
  assert (Hin : In ("GM", 2) (head 2 (value_counts ["Kia"; "Ford"; "GM"; "Ford"; "GM"])))
    by (simpl; tauto).
  assert (Hnot : ~ In "Kia"
                   (map fst (head 2 (value_counts ["Kia"; "Ford"; "GM"; "Ford"; "GM"]))))
    by (simpl; intros [H|[H|[]]]; discriminate).
  split; [exact Hin|]. split; [exact Hnot|].
  apply (Hkeep "Kia" ("GM", 2) Hin); [simpl; tauto | exact Hnot].
Defined.

Lemma head_all {A : Type} (n : Z) (l : list A) :
  (Z.of_nat (List.length l) <= n)%Z -> head n l = l.
Proof.
  intros H. unfold head. destruct (0 <=? n)%Z eqn:E.
  - apply firstn_all2. lia.
  - apply Z.leb_gt in E. lia.
Qed.

(** X3: a limit that reaches the number of distinct values cuts nothing:
    the ranking then has one entry for each value of the input and no
    other, and its counts add up to the length of the input. *)
Theorem top_brands_complete (makes : list string) (limit : Z) :
  (Z.of_nat (distinct makes) <= limit)%Z ->
  exists out,
    result (get_top_vehicle_brands makes limit) = Returned out
    /\ List.length out = distinct makes
    /\ (forall a, In a makes <-> In a (map fst out))
    /\ total out = List.length makes.
Proof.
  intros Hlimit. exists (value_counts makes).
  rewrite top_brands_result, head_all by (rewrite length_value_counts; exact Hlimit).
  split; [reflexivity|]. split; [apply length_value_counts|]. split.
  - intros a. rewrite <- (keys_tally_In makes a). unfold value_counts.
    split; apply Permutation_in, Permutation_map;
      [apply Permutation_sym|]; apply sort_desc_perm.
  - unfold value_counts. rewrite (total_perm _ _ (sort_desc_perm _)). apply total_tally.
Qed.

(** Three makes, two of them distinct, under the limit of ten. *)
Lemma top_brands_complete_witness :
  (Z.of_nat (distinct ["Ford"; "GM"; "Ford"]) <= 10)%Z
  /\ exists out,
       result (get_top_vehicle_brands ["Ford"; "GM"; "Ford"] 10) = Returned out
       /\ List.length out = 2
       /\ total out = 3.
Proof.
  assert (H : (Z.of_nat (distinct ["Ford"; "GM"; "Ford"]) <= 10)%Z)
    by (vm_compute; discriminate).
  split; [exact H|].
  destruct (top_brands_complete ["Ford"; "GM"; "Ford"] 10 H)
    as (out & Hres & Hlen & _ & Htotal).
  exists out. split; [exact Hres|]. split; [exact Hlen | exact Htotal].
Defined.

(** X4: rankings of one input are nested: for limits [0 <= n <= m] the
    ranking cut at [n] is the first [n] entries of the ranking cut at [m]. *)
Theorem top_brands_nested (makes : list string) (n m : Z) :
  (0 <= n <= m)%Z ->
  exists small big,
    result (get_top_vehicle_brands makes n) = Returned small
    /\ result (get_top_vehicle_brands makes m) = Returned big
    /\ small = firstn (Z.to_nat n) big.
Proof.
  intros Hnm.
  exists (head n (value_counts makes)), (head m (value_counts makes)).
  split; [apply top_brands_result|]. split; [apply top_brands_result|].
  unfold head.
  replace (0 <=? n)%Z with true by (symmetry; apply Z.leb_le; lia).
  replace (0 <=? m)%Z with true by (symmetry; apply Z.leb_le; lia).
  rewrite firstn_firstn. f_equal. lia.
Qed.

(** The top one of a series is the head of its top two. *)
Lemma top_brands_nested_witness :
  (0 <= 1 <= 2)%Z
  /\ exists small big,
       result (get_top_vehicle_brands ["GM"; "Ford"; "Ford"] 1) = Returned small
       /\ result (get_top_vehicle_brands ["GM"; "Ford"; "Ford"] 2) = Returned big
       /\ small = firstn 1 big.
Proof.
  assert (H : (0 <= 1 <= 2)%Z) by lia.
  split; [exact H|].
  exact (top_brands_nested ["GM"; "Ford"; "Ford"] 1 2 H).
Defined.

(** ** How the extractor ends *)

Lemma extract_step_non_record (makes : list string) (v : value) :
  is_record v = false -> extract_step makes v = ([], Raised AttributeError).
Proof. destruct v; simpl; intros H; try discriminate; reflexivity. Qed.

Lemma for_each_non_record (xs : list value) (acc : list string) :
  forallb is_record xs = false ->
  for_each xs acc extract_step = ([], Raised AttributeError).
Proof.
  revert acc. induction xs as [|x xs IH]; intros acc; simpl; [discriminate|].
  destruct (is_record x) eqn:E; simpl; intros H.
  - destruct x; try discriminate E.
    rewrite extract_step_record, bind_returned, (IH _ H). reflexivity.
  - rewrite (extract_step_non_record _ _ E). reflexivity.
Qed.

Lemma all_records (xs : list value) :
  forallb is_record xs = true -> exists rs, xs = map VDict rs.
Proof.
  induction xs as [|x xs IH]; simpl; intros H.
  - exists []. reflexivity.
  - apply andb_true_iff in H. destruct H as [Hx Hxs].
    destruct (IH Hxs) as (rs & ->). destruct x; try discriminate Hx.
    exists (kvs :: rs). reflexivity.
Qed.

Lemma extract_records_run (rs : list record) :
  extract_vehicle_makes (records rs)
  = (match rs with
     | [] => [Print NoCrashData]
     | _ :: _ => match flat_map kept_make rs with
                 | [] => [Print NoMakesExtracted]
                 | _ :: _ => []
                 end
     end,
     Returned (flat_map kept_make rs)).
Proof.
  unfold extract_vehicle_makes, records.
  destruct rs as [|r rs]; [reflexivity|].
  change (truthy (VList (map VDict (r :: rs)))) with true. cbv beta iota delta [negb].
  change (lift (py_iter (VList (map VDict (r :: rs)))))
    with (@ret (list value) (map VDict (r :: rs))).
  unfold ret at 1. rewrite bind_returned, for_each_records, bind_returned.
  generalize (flat_map kept_make (r :: rs)). intros out.
  destruct out; reflexivity.
Qed.

Lemma extract_run_failure (crash_data : value) (e : exn) :
  extract_failure crash_data = Some e ->
  extract_vehicle_makes crash_data = ([], Raised e).
Proof.
  unfold extract_failure, extract_vehicle_makes.
  destruct (truthy crash_data) eqn:Ht; simpl; [|discriminate].
  destruct crash_data as [|b|n|z t|t|xs|kvs]; simpl in *;
    try discriminate; try (intros [= <-]; reflexivity).
  - destruct t as [|c t]; [discriminate|]. intros [= <-]. reflexivity.
  - destruct (forallb is_record xs) eqn:E; [discriminate|]. intros [= <-].
    unfold lift, bind at 1. cbn [fst snd app].
    rewrite (for_each_non_record _ _ E). reflexivity.
  - destruct kvs as [|[k v] kvs]; [discriminate|]. intros [= <-]. reflexivity.
Qed.

(** X5: the extractor ends in an exception exactly on input that is true
    in Python's sense and is not a list of objects: [AttributeError] for a
    list with an item that is not an object and for a non-empty string or
    object, [TypeError] for a number or boolean; it has then printed
    nothing.  On every other input it returns. *)
Theorem extract_outcome (crash_data : value) :
  match extract_failure crash_data with
  | Some e => extract_vehicle_makes crash_data = ([], Raised e)
  | None => exists makes, result (extract_vehicle_makes crash_data) = Returned makes
  end.
Proof.
  destruct (extract_failure crash_data) as [e|] eqn:E.
  - now apply extract_run_failure.
  - unfold extract_failure in E.
    destruct (truthy crash_data) eqn:Ht; simpl in E.
    + destruct crash_data as [|b|n|z t|t|xs|kvs]; try discriminate E.
      destruct (forallb is_record xs) eqn:Hrec; [|discriminate E].
      destruct (all_records xs Hrec) as (rs & ->).
      exists (flat_map kept_make rs). apply extract_records_result.
    + exists []. unfold extract_vehicle_makes. rewrite Ht. reflexivity.
Qed.

(** ** The pipeline after the fetch *)

Lemma distinct_positive (makes : list string) : makes <> [] -> 1 <= distinct makes.
Proof.
  destruct makes as [|a makes]; [congruence|]. intros _. unfold distinct.
  assert (H : In a (nodup string_dec (a :: makes))) by (apply nodup_In; now left).
  destruct (nodup string_dec (a :: makes)); [destruct H | simpl; lia].
Qed.

Lemma top_ten_size (makes : list string) :
  makes <> [] ->
  1 <= List.length (head 10 (value_counts makes)) <= 10.
Proof.
  intros Hne. pose proof (distinct_positive makes Hne) as Hd.
  pose proof (length_head 10 (value_counts makes)) as Hlen.
  rewrite length_value_counts in Hlen. simpl in Hlen. lia.
Qed.

Lemma report_run (top_brands : list (string * nat)) :
  top_brands <> [] -> report top_brands = (report_events top_brands, Returned tt).
Proof. destruct top_brands; [congruence | reflexivity]. Qed.

Lemma pipeline_records (rs : list record) :
  pipeline (records rs)
  = match rs with
    | [] => ([Print NoDataRetrieved], Returned tt)
    | _ :: _ =>
        match flat_map kept_make rs with
        | [] => ([Print NoMakesExtracted; Print CannotProceed], Returned tt)
        | _ :: _ =>
            (report_events (head 10 (value_counts (flat_map kept_make rs))), Returned tt)
        end
    end.
Proof.
  destruct rs as [|r rs]; [reflexivity|].
  unfold pipeline. change (truthy (records (r :: rs))) with true.
  cbv beta iota delta [negb]. rewrite extract_records_run, bind_returned.
  destruct (flat_map kept_make (r :: rs)) as [|k makes] eqn:E; [reflexivity|].
  assert (Htop : head 10 (value_counts (k :: makes)) <> []).
  { pose proof (top_ten_size (k :: makes)) as Hsize. intros Hnil.
    rewrite Hnil in Hsize. simpl in Hsize.
    assert (k :: makes <> []) by discriminate. intuition lia. }
  unfold get_top_vehicle_brands.
  cbn [bind ret events result fst snd app].
  rewrite (report_run _ Htop). reflexivity.
Qed.

(** X6: a record list with at least one usable manufacturer field makes
    [main] print the ranking, write the file, report the path and show the
    chart, in that order and nothing else; the file and the chart carry the
    same ranking, which has between one and ten entries. *)
Theorem pipeline_reports_ranking (rs : list record) :
  flat_map kept_make rs <> [] ->
  pipeline (records rs)
    = (report_events (head 10 (value_counts (flat_map kept_make rs))), Returned tt)
  /\ 1 <= List.length (head 10 (value_counts (flat_map kept_make rs))) <= 10.
Proof.
  intros Hne. split; [|now apply top_ten_size].
  rewrite pipeline_records. destruct rs as [|r rs]; [now elim Hne|].
  destruct (flat_map kept_make (r :: rs)); [now elim Hne | reflexivity].
Qed.

(** Two records of one make: one row, one bar. *)
Lemma pipeline_reports_ranking_witness :
  flat_map kept_make [[("vehicleMake", VStr "Ford")]; [("vehicleMake", VStr " Ford")]] <> []
  /\ pipeline (records [[("vehicleMake", VStr "Ford")]; [("vehicleMake", VStr " Ford")]])
     = (report_events [("Ford", 2)], Returned tt).
Proof.
  assert (H : flat_map kept_make
                [[("vehicleMake", VStr "Ford")]; [("vehicleMake", VStr " Ford")]] <> [])
    by discriminate.
  split; [exact H|].
  exact (proj1 (pipeline_reports_ranking
                  [[("vehicleMake", VStr "Ford")]; [("vehicleMake", VStr " Ford")]] H)).
Defined.

(** X7: records are there but none has a usable manufacturer field (it is
    missing, [None], empty, zero or [False] in each): [main] stops after
    two diagnostics, writes no file, shows no chart and raises nothing. *)
Theorem pipeline_without_makes (rs : list record) :
  rs <> [] ->
  Forall (fun r => truthy (vehicle_make_of r) = false) rs ->
  pipeline (records rs)
    = ([Print NoMakesExtracted; Print CannotProceed], Returned tt).
Proof.
  intros Hne Hall. rewrite pipeline_records.
  destruct rs as [|r rs]; [now elim Hne|].
  replace (flat_map kept_make (r :: rs)) with (@nil string); [reflexivity|].
  symmetry. clear Hne. induction Hall as [|x xs Hx _ IH]; [reflexivity|].
  simpl. unfold kept_make at 1. rewrite Hx. exact IH.
Qed.

(** A record without the field and one with an empty field. *)
Lemma pipeline_without_makes_witness :
  [[("year", VInt 2023)]; [("vehicleMake", VStr "")]] <> []
  /\ pipeline (records [[("year", VInt 2023)]; [("vehicleMake", VStr "")]])
     = ([Print NoMakesExtracted; Print CannotProceed], Returned tt).
Proof.
  assert (H : [[("year", VInt 2023)]; [("vehicleMake", VStr "")]] <> []) by discriminate.
  split; [exact H|].
  apply (pipeline_without_makes [[("year", VInt 2023)]; [("vehicleMake", VStr "")]] H).
  repeat constructor.
Defined.

(** ** What the fetcher hands on *)

Lemma fetch_sized
    (api_key : string) (net : request -> reply) (year : Z) (state : option string) :
  exists v,
    result (fetch_crash_data api_key net year state) = Returned v /\ sized v = true.
Proof.
  destruct (String.eqb api_key NHTSA_API_KEY) eqn:Hkey.
  - apply String.eqb_eq in Hkey. subst. exists (VList []). split; reflexivity.
  - rewrite (fetch_result _ _ _ _ Hkey), fetch_body_result.
    destruct (net _) as [|status reply_body]; [exists (VList []); split; reflexivity|].
    destruct (status_ok status); [|exists (VList []); split; reflexivity].
    destruct reply_body as [|data]; [exists (VList []); split; reflexivity|].
    destruct data as [|b|n|z t|t|xs|kvs]; try (exists (VList []); split; reflexivity).
    destruct (envelope_first (VDict kvs)) as [first|];
      [|exists (VList []); split; reflexivity].
    destruct (sized first) eqn:Hs; [exists first | exists (VList [])]; split;
      solve [reflexivity | exact Hs].
Qed.

(** X8: whatever the remote end does, the value [fetch_crash_data] hands
    to its caller is a list, a string or an object - never [None], a boolean
    or a number - so the caller may always take its length. *)
Theorem fetch_returns_sized
    (api_key : string) (net : request -> reply) (year : Z) (state : option string) :
  exists v,
    result (fetch_crash_data api_key net year state) = Returned v
    /\ sized v = true
    /\ exists n, py_len v = Returned n.
Proof.
  destruct (fetch_sized api_key net year state) as (v & Hres & Hs).
  exists v. split; [exact Hres|]. split; [exact Hs|].
  destruct v; try discriminate Hs; eexists; reflexivity.
Qed.

(** ** [main] as a whole *)

Lemma filter_orb_nil {A : Type} (f g : A -> bool) (l : list A) :
  filter (fun x => f x || g x) l = [] -> filter f l = [] /\ filter g l = [].
Proof.
  induction l as [|x l IH]; simpl; [auto|].
  destruct (f x); simpl; [discriminate|].
  destruct (g x); simpl; [discriminate|]. exact IH.
Qed.

Lemma fetch_body_no_dirs (net : request -> reply) (r : request) (year : Z)
    (state_code : option string) :
  filter is_make_dirs (events (fetch_body net r year state_code)) = [].
Proof.
  unfold fetch_body, requests_get.
  destruct (net r) as [|status reply_body] eqn:E; [reflexivity|].
  unfold bind at 1 2 3. cbn [emit fst snd ret raise app].
  unfold raise_for_status. cbn [status_code].
  destruct ((400 <=? status) && (status <? 600)); [reflexivity|].
  destruct reply_body as [|data]; [reflexivity|].
  destruct data as [| | | | |xs|kvs]; try reflexivity.
  cbn [response_json content py_get lift bind fst snd ret app].
  destruct (dict_get "Results" kvs) as [results|]; [|reflexivity].
  destruct results as [|b|n|z t|t|ys|ws]; try reflexivity;
    cbn [truthy isinstance_list]; rewrite ?andb_false_r; try reflexivity.
  destruct ys as [|first ys]; [reflexivity|].
  destruct first; reflexivity.
Qed.

Lemma fetch_no_dirs (api_key : string) (net : request -> reply) (year : Z)
    (state : option string) :
  filter is_make_dirs (events (fetch_crash_data api_key net year state)) = [].
Proof.
  destruct (String.eqb api_key NHTSA_API_KEY) eqn:Hkey.
  - apply String.eqb_eq in Hkey. subst. reflexivity.
  - rewrite (fetch_with_key _ _ _ _ Hkey), events_try_except.
    destruct (result (fetch_body _ _ _ _)) as [v|e] eqn:E.
    + apply fetch_body_no_dirs.
    + rewrite filter_app, fetch_body_no_dirs. destruct e; reflexivity.
Qed.

Lemma fetch_requests (api_key : string) (net : request -> reply) (year : Z)
    (state : option string) :
  filter is_http_get (events (fetch_crash_data api_key net year state))
  = if String.eqb api_key NHTSA_API_KEY then []
    else [HttpGet (build_request api_key year state)].
Proof.
  destruct (String.eqb api_key NHTSA_API_KEY) eqn:Hkey.
  - apply String.eqb_eq in Hkey. subst. reflexivity.
  - rewrite (fetch_with_key _ _ _ _ Hkey), events_try_except.
    destruct (result (fetch_body _ _ _ _)) eqn:E.
    + apply fetch_body_requests.
    + rewrite filter_app, fetch_body_requests, fetch_handler_events. reflexivity.
Qed.

Lemma pipeline_raises (v : value) :
  sized v = true -> negb (truthy v) || is_record_list v = false ->
  pipeline v = ([], Raised AttributeError).
Proof.
  intros Hs Hbad. apply orb_false_iff in Hbad. destruct Hbad as [Ht Hrec].
  apply negb_false_iff in Ht.
  assert (Hfail : extract_failure v = Some AttributeError).
  { unfold extract_failure. rewrite Ht. simpl.
    destruct v; try discriminate Hs; try reflexivity.
    simpl in Hrec. rewrite Hrec. reflexivity. }
  unfold pipeline. rewrite Ht. simpl.
  rewrite (extract_run_failure _ _ Hfail). reflexivity.
Qed.

Lemma pipeline_returns (v : value) :
  negb (truthy v) || is_record_list v = true ->
  result (pipeline v) = Returned tt
  /\ filter is_remote_or_dirs (events (pipeline v)) = [].
Proof.
  intros Hok. destruct (truthy v) eqn:Ht.
  - simpl in Hok. destruct v as [| | | | |xs|]; try discriminate Hok.
    destruct (all_records xs Hok) as (rs & ->). fold (records rs).
    rewrite pipeline_records. destruct rs as [|r rs]; [split; reflexivity|].
    destruct (flat_map kept_make (r :: rs)); split; reflexivity.
  - unfold pipeline. rewrite Ht. split; reflexivity.
Qed.

Lemma main_run (api_key : string) (net : request -> reply) (dir_exists : bool)
    (v : value) :
  result (fetch_crash_data api_key net 2023 (Some "MI")) = Returned v ->
  main api_key net dir_exists
  = ((if dir_exists then []
      else [MakeDirs "outputs"; Print (CreatedDirectory "outputs")])
       ++ events (fetch_crash_data api_key net 2023 (Some "MI"))
       ++ events (pipeline v),
     result (pipeline v)).
Proof.
  intros Hfetch. unfold main. cbv zeta.
  set (run := fetch_crash_data api_key net 2023 (Some "MI")) in *.
  rewrite (run_eta run), Hfetch.
  destruct dir_exists; reflexivity.
Qed.

(** X9: [main] ends in one of two ways.  It returns when the fetched value
    is empty or is a list of objects; when the fetched value is a non-empty
    string or object, or a list holding something that is not an object, the
    extractor's [AttributeError] leaves [main] uncaught, before any file is
    written or chart shown. *)
Theorem main_outcome (api_key : string) (net : request -> reply) (dir_exists : bool) :
  exists v,
    result (fetch_crash_data api_key net 2023 (Some "MI")) = Returned v
    /\ result (main api_key net dir_exists)
       = (if negb (truthy v) || is_record_list v
          then Returned tt
          else Raised AttributeError)
    /\ match result (main api_key net dir_exists) with
       | Returned _ => True
       | Raised _ => filter is_output (events (main api_key net dir_exists)) = []
       end.
Proof.
  destruct (fetch_sized api_key net 2023 (Some "MI")) as (v & Hfetch & Hs).
  exists v. split; [exact Hfetch|].
  rewrite (main_run _ _ _ _ Hfetch). cbn [result events fst snd].
  destruct (negb (truthy v) || is_record_list v) eqn:Hok.
  - rewrite (proj1 (pipeline_returns v Hok)). split; [reflexivity | exact I].
  - rewrite (pipeline_raises v Hs Hok). cbn [result events fst snd].
    split; [reflexivity|].
    rewrite !filter_app, fetch_no_output. destruct dir_exists; reflexivity.
Qed.

(** A string under ["Results"] gets through the fetcher and stops [main]. *)
Example main_raises_on_string_element :
  main "key" (fun _ => Reply 200 (Json (VDict [("Results", VList [VStr "abc"])]))) true
  = ([ Print (Fetching " for 2023 (MI)");
       HttpGet (build_request "key" 2023 (Some "MI"));
       Print (Fetched 3) ],
     Raised AttributeError).
Proof. reflexivity. Qed.

(** X10: one run of [main] sends at most one request: none while the
    access key is the placeholder, otherwise exactly one, for 2023 and
    region MI, with no second try whatever comes back. *)
Theorem main_requests (api_key : string) (net : request -> reply) (dir_exists : bool) :
  filter is_http_get (events (main api_key net dir_exists))
  = if String.eqb api_key NHTSA_API_KEY then []
    else [HttpGet {| url := base_url;
                     params := [("format", VStr "json"); ("year", VInt 2023);
                                ("API_KEY", VStr api_key); ("state", VStr "MI")] |}].
Proof.
  destruct (fetch_sized api_key net 2023 (Some "MI")) as (v & Hfetch & Hs).
  rewrite (main_run _ _ _ _ Hfetch). cbn [events fst].
  rewrite !filter_app, fetch_requests.
  assert (Hpipe : filter is_http_get (events (pipeline v)) = []).
  { destruct (negb (truthy v) || is_record_list v) eqn:Hok.
    - exact (proj1 (filter_orb_nil _ _ _ (proj2 (pipeline_returns v Hok)))).
    - rewrite (pipeline_raises v Hs Hok). reflexivity. }
  rewrite Hpipe, app_nil_r.
  destruct dir_exists; destruct (String.eqb api_key NHTSA_API_KEY); reflexivity.
Qed.

(** X11: [main] sees to the output directory first and on every run: when
    it is missing, creating it is the first thing that happens - also on
    runs that end with nothing to write - and it is never created twice or
    when it is already there. *)
Theorem main_directory (api_key : string) (net : request -> reply) (dir_exists : bool) :
  filter is_make_dirs (events (main api_key net dir_exists))
    = (if dir_exists then [] else [MakeDirs "outputs"])
  /\ hd_error (events (main api_key net false)) = Some (MakeDirs "outputs").
Proof.
  destruct (fetch_sized api_key net 2023 (Some "MI")) as (v & Hfetch & Hs).
  rewrite !(main_run _ _ _ _ Hfetch). cbn [events fst]. split; [|reflexivity].
  rewrite !filter_app, fetch_no_dirs.
  assert (Hpipe : filter is_make_dirs (events (pipeline v)) = []).
  { destruct (negb (truthy v) || is_record_list v) eqn:Hok.
    - exact (proj2 (filter_orb_nil _ _ _ (proj2 (pipeline_returns v Hok)))).
    - rewrite (pipeline_raises v Hs Hok). reflexivity. }
  rewrite Hpipe. destruct dir_exists; reflexivity.
Qed.

(** ** More on region codes *)

Lemma state_codes_fixed :
  Forall (fun entry => state_code_of (snd entry) = snd entry
                       /\ upper (snd entry) = snd entry) STATE_CODE_MAP.
Proof. repeat constructor. Qed.

(** X12: resolving is idempotent and its result is in upper case: a code
    that came out of the resolution - from the table or passed through -
    goes through it again unchanged, so a caller may hand in a name or a
    code alike. *)
Theorem region_code_stable (s : string) :
  state_code_of (state_code_of s) = state_code_of s
  /\ upper (state_code_of s) = state_code_of s.
Proof.
  assert (H : state_code_of s
              = match dict_get (upper s) STATE_CODE_MAP with
                | Some code => code
                | None => upper s
                end) by reflexivity.
  destruct (dict_get (upper s) STATE_CODE_MAP) as [code|] eqn:E; rewrite H.
  - apply dict_get_Some_In in E.
    pose proof state_codes_fixed as Hfix. rewrite Forall_forall in Hfix.
    exact (Hfix _ E).
  - unfold state_code_of. rewrite !upper_idempotent, E. split; reflexivity.
Qed.

(* ================================================================== *)
(** * What the libraries decide *)

(** ** The order among equal counts *)

Lemma sort_desc_conforms : sorts_descending sort_desc.
Proof. intros l. split; [apply sort_desc_perm | apply sort_desc_sorted]. Qed.

Lemma top_brands_uses_sort_desc (makes : list string) (limit : Z) :
  get_top_vehicle_brands makes limit
  = get_top_vehicle_brands_with sort_desc makes limit.
Proof. reflexivity. Qed.

Lemma insert_desc_late_perm (x : string * nat) (l : list (string * nat)) :
  Permutation (insert_desc_late x l) (x :: l).
Proof.
  induction l as [|y l IH]; simpl; [reflexivity|].
  destruct (snd x <=? snd y); [|reflexivity].
  rewrite IH. apply perm_swap.
Qed.

Lemma sort_desc_late_perm (l : list (string * nat)) : Permutation (sort_desc_late l) l.
Proof.
  induction l as [|x l IH]; simpl; [reflexivity|].
  rewrite insert_desc_late_perm. now constructor.
Qed.

Lemma insert_desc_late_sorted (x : string * nat) (l : list (string * nat)) :
  StronglySorted count_ge l -> StronglySorted count_ge (insert_desc_late x l).
Proof.
  induction 1 as [|y l Hs IH Hall]; simpl.
  - repeat constructor.
  - destruct (snd x <=? snd y) eqn:E.
    + apply Nat.leb_le in E. constructor; [exact IH|].
      apply (Permutation_Forall (Permutation_sym (insert_desc_late_perm x l))).
      constructor; [exact E | exact Hall].
    + apply Nat.leb_gt in E. constructor; [now constructor|].
      constructor; [unfold count_ge; lia|].
      apply (Forall_impl _ (P := count_ge y)); [|exact Hall].
      unfold count_ge. intros z Hz. lia.
Qed.

Lemma sort_desc_late_conforms : sorts_descending sort_desc_late.
Proof.
  intros l. split; [apply sort_desc_late_perm|].
  induction l as [|x l IH]; simpl; [constructor | now apply insert_desc_late_sorted].
Qed.

Lemma top_brands_with_result
    (sort : list (string * nat) -> list (string * nat)) (makes : list string) (limit : Z) :
  sorts_descending sort ->
  result (get_top_vehicle_brands_with sort makes limit)
  = Returned (head limit (value_counts_with sort makes)).
Proof.
  intros Hsort. destruct makes as [|k makes]; [|reflexivity].
  unfold value_counts_with.
  pose proof (Permutation_length (proj1 (Hsort (tally [])))) as Hlen.
  destruct (sort (tally [])); [|discriminate Hlen].
  simpl. unfold head. cbn. destruct (0 <=? limit)%Z; [|reflexivity].
  now rewrite firstn_nil.
Qed.

(** C2, as the specification words it, fails: the one line of the
    aggregator leaves the order among equal counts to the sort inside
    [value_counts], and a sort that is descending as pandas promises may
    put [d] ahead of [c] although [c] is met first. *)
Lemma top_brands_tie_order_not_fixed :
  sorts_descending sort_desc_late
  /\ result (get_top_vehicle_brands_with sort_desc_late ["a"; "b"; "c"; "c"; "d"; "d"] 2)
     = Returned [("d", 2); ("c", 2)]
  /\ result (get_top_vehicle_brands_with sort_desc_late ["a"; "b"; "c"; "c"; "d"; "d"] 1)
     = Returned [("d", 2)]
  /\ index_of "c" ["a"; "b"; "c"; "c"; "d"; "d"] = Some 2
  /\ index_of "d" ["a"; "b"; "c"; "c"; "d"; "d"] = Some 4
  /\ ~ ties_in_first_seen_order ["a"; "b"; "c"; "c"; "d"; "d"] [("d", 2); ("c", 2)].
Proof.
  split; [apply sort_desc_late_conforms|].
  repeat (split; [reflexivity|]).
  intros H. destruct (H 0 1 ("d", 2) ("c", 2)) as (ia & ib & Ha & Hb & Hlt);
    try reflexivity; [lia|].
  simpl in Ha, Hb. injection Ha as <-. injection Hb as <-. lia.
Qed.

(** C2 (amended): whichever descending sort the library runs, the ranking
    is in descending order of count; which of two entries of equal count
    comes first is not fixed by the code.  [Ford, Ford, GM, GM] with limit 2
    gives the two entries [(Ford, 2)] and [(GM, 2)], in one order or the
    other. *)
Theorem top_brands_descending
    (sort : list (string * nat) -> list (string * nat)) (makes : list string) (limit : Z) :
  sorts_descending sort ->
  (exists out,
     result (get_top_vehicle_brands_with sort makes limit) = Returned out
     /\ (forall i j x y,
           i < j -> nth_error out i = Some x -> nth_error out j = Some y ->
           snd y <= snd x))
  /\ (exists out,
        result (get_top_vehicle_brands_with sort ["Ford"; "Ford"; "GM"; "GM"] 2)
          = Returned out
        /\ Permutation out [("Ford", 2); ("GM", 2)]).
Proof.
  intros Hsort. split.
  - exists (head limit (value_counts_with sort makes)).
    split; [now apply top_brands_with_result|].
    intros i j x y Hij Hi Hj.
    pose proof (before_of_positions _ i j x y Hij Hi Hj) as Hb.
    apply before_head_inv in Hb.
    exact (before_sorted count_ge _ x y (proj2 (Hsort _)) Hb).
  - exists (value_counts_with sort ["Ford"; "Ford"; "GM"; "GM"]).
    pose proof (proj1 (Hsort (tally ["Ford"; "Ford"; "GM"; "GM"]))) as Hperm.
    split; [|exact Hperm].
    rewrite (top_brands_with_result _ _ _ Hsort), head_all; [reflexivity|].
    unfold value_counts_with. rewrite (Permutation_length Hperm). simpl. lia.
Qed.

(** The sort of this file is one such sort. *)
Lemma top_brands_descending_witness :
  sorts_descending sort_desc
  /\ exists out,
       result (get_top_vehicle_brands ["Kia"; "GM"; "GM"] 2) = Returned out
       /\ nth_error out 0 = Some ("GM", 2)
       /\ nth_error out 1 = Some ("Kia", 1)
       /\ 1 <= 2.
Proof.
  split; [exact sort_desc_conforms|].
  destruct (proj1 (top_brands_descending sort_desc ["Kia"; "GM"; "GM"] 2 sort_desc_conforms))
    as (out & Hres & Hdesc).
  exists out. rewrite top_brands_uses_sort_desc. split; [exact Hres|].
  injection Hres as <-.
  split; [reflexivity|]. split; [reflexivity|].
  exact (Hdesc 0 1 ("GM", 2) ("Kia", 1) (Nat.lt_0_1) eq_refl eq_refl).
Defined.

(** ** Region text beyond ASCII *)

Lemma state_table_facts :
  Forall (fun entry =>
            is_ascii (fst entry) = true
            /\ upper (fst entry) = fst entry
            /\ dict_get (fst entry) STATE_CODE_MAP = Some (snd entry)
            /\ String.length (snd entry) = 2) STATE_CODE_MAP.
Proof. repeat constructor. Qed.

Lemma state_name_fixed (up : string -> string) (name code : string) :
  upper_on_ascii up -> In (name, code) STATE_CODE_MAP ->
  up name = name
  /\ dict_get name STATE_CODE_MAP = Some code
  /\ String.length code = 2.
Proof.
  intros Hup Hin. pose proof state_table_facts as H. rewrite Forall_forall in H.
  destruct (H _ Hin) as (Hascii & Hfix & Hget & Hlen). simpl in *.
  rewrite (Hup _ Hascii). auto.
Qed.

(** C6, as the specification words it, fails for the empty region: it is
    false in [if state:], so nothing is resolved and no region is sent,
    where the claim has the empty text passed through. *)
Lemma empty_region_not_sent :
  resolve_state (Some "") = None
  /\ dict_get "state" (build_params "key" 2023 (Some "")) = None
  /\ resolve_region_spec "" = Some ""
  /\ resolve_state (Some "") <> resolve_region_spec "".
Proof. repeat (split; [reflexivity|]). discriminate. Qed.

(** C6 (amended): the region code is a function of the region text alone.
    No region and the empty region give no code.  A text that is not empty
    and equals, case aside, one of the 51 names of the table gets that
    name's two-letter code; any other text that is not empty is sent as
    [upper()] returns it.  [California] gives [CA], [michigan] gives [MI],
    and [ZZ] stays [ZZ].  This holds for every [upper()] that does to ASCII
    text what Python's does, Python's own included. *)
Theorem region_resolution (up : string -> string) (s : string) :
  upper_on_ascii up ->
  List.length STATE_CODE_MAP = 51
  /\ (forall name code,
        In (name, code) STATE_CODE_MAP -> eq_ignore_case_with up s name = true ->
        state_code_of_with up s = code /\ String.length code = 2)
  /\ ((forall name code,
         In (name, code) STATE_CODE_MAP -> eq_ignore_case_with up s name = false) ->
      state_code_of_with up s = up s)
  /\ (s <> "" -> resolve_state_with up (Some s) = Some (state_code_of_with up s))
  /\ resolve_state_with up (Some "") = None
  /\ resolve_state_with up None = None
  /\ state_code_of_with up "California" = "CA"
  /\ state_code_of_with up "michigan" = "MI"
  /\ state_code_of_with up "ZZ" = "ZZ"
  /\ state_code_of = state_code_of_with upper
  /\ resolve_state = resolve_state_with upper.
Proof.
  intros Hup. split; [reflexivity|]. split; [|split; [|split]].
  - intros name code Hin Heq. unfold eq_ignore_case_with in Heq.
    apply String.eqb_eq in Heq.
    destruct (state_name_fixed up name code Hup Hin) as (Hname & Hget & Hlen).
    unfold state_code_of_with. rewrite Heq, Hname, Hget. split; [reflexivity | exact Hlen].
  - intros Hnone. unfold state_code_of_with.
    rewrite dict_get_absent; [reflexivity|].
    intros name code Hin. pose proof (Hnone name code Hin) as Hne.
    unfold eq_ignore_case_with in Hne.
    destruct (state_name_fixed up name code Hup Hin) as (Hname & _).
    now rewrite Hname in Hne.
  - intros Hne. destruct s; [now elim Hne | reflexivity].
  - unfold state_code_of_with.
    rewrite (Hup "California" eq_refl), (Hup "michigan" eq_refl), (Hup "ZZ" eq_refl).
    repeat split; reflexivity.
Qed.

(** Mixed case still finds the name, with the ASCII [upper] of this file. *)
Lemma region_resolution_witness :
  upper_on_ascii upper
  /\ In ("CALIFORNIA", "CA") STATE_CODE_MAP
  /\ eq_ignore_case_with upper "caliFornia" "CALIFORNIA" = true
  /\ state_code_of "caliFornia" = "CA".
Proof.
  assert (Hup : upper_on_ascii upper) by (intros t _; reflexivity).
  assert (Hin : In ("CALIFORNIA", "CA") STATE_CODE_MAP) by (simpl; tauto).
  split; [exact Hup|]. split; [exact Hin|]. split; [reflexivity|].
  apply (proj1 (proj2 (region_resolution upper "caliFornia" Hup)) "CALIFORNIA" "CA" Hin eq_refl).
Defined.
